(** * Non-transitive dice game ([game.py]): shallow embedding and properties

    The development follows the layout of [game.py]:
    - [Py]        the Python built-ins the program relies on
                  ([int], [str], [str.strip], [str.split], list indexing,
                  [%], [/] and [round] on binary64 floats);
    - [Hashlib]   [hashlib.sha3_256] and [hmac.new(...).hexdigest()];
    - [Secrets]   the [secrets] module, as a tape of random draws;
    - [ProbabilityCalculator], [Dice], [DiceParser], [FairRandomGenerator],
      [Game]      the classes of the program, one module each;
    - [main]      the entry point.

    Python [int] is [Z]; [str] is [string], its characters read as code
    points below 256; [bytes] is [list byte]; [float] is the binary64
    instance of [spec_float]. *)

From Stdlib Require Import ZArith List String Ascii Bool Lia.
From Stdlib Require Import Strings.Byte QArith Qabs.
From Stdlib Require Import Floats.SpecFloat.
From Stdlib Require DecimalString DecimalPos.
From Stdlib Require Import Sorted.
Import ListNotations.

Local Open Scope string_scope.
Local Open Scope Z_scope.

(* ================================================================= *)
(** ** Outcomes of Python calls *)

(** The exceptions the program can raise.  [ValueError] carries its message;
    the message of a failed [int(s)] is kept as the offending literal. *)
Inductive Message :=
  | Text (s : string)
  | InvalidLiteral (s : string).

Inductive Exception :=
  | ValueError (m : Message)
  | IndexError
  | ZeroDivisionError
  | EOFError.

(** A call returns a value, raises, or leaves through [sys.exit(code)]. *)
Inductive Outcome (A : Type) :=
  | Return (a : A)
  | Raise (e : Exception)
  | Exit (code : Z).
Arguments Return {A} a.
Arguments Raise {A} e.
Arguments Exit {A} code.

Definition bind {A B} (m : Outcome A) (k : A -> Outcome B) : Outcome B :=
  match m with
  | Return a => k a
  | Raise e => Raise e
  | Exit c => Exit c
  end.

Notation "x <- m ;; k" := (bind m (fun x => k))
  (at level 61, m at next level, right associativity).

(* ================================================================= *)
(** ** Python built-ins *)

Module Py.

(** [str.isspace] on one character, for code points below 256. *)
Definition isspace (c : ascii) : bool :=
  let n := nat_of_ascii c in
  ((9 <=? n) && (n <=? 13) || (28 <=? n) && (n <=? 32)
   || (n =? 133) || (n =? 160))%nat.

Fixpoint lstrip (s : string) : string :=
  match s with
  | String c s' => if isspace c then lstrip s' else s
  | EmptyString => EmptyString
  end.

(** Drops trailing whitespace: a character is kept when something that is
    not whitespace follows it or when it is not whitespace itself. *)
Fixpoint rstrip (s : string) : string :=
  match s with
  | String c s' =>
      match rstrip s' with
      | EmptyString => if isspace c then EmptyString else String c EmptyString
      | r => String c r
      end
  | EmptyString => EmptyString
  end.

(** [s.strip()] *)
Definition strip (s : string) : string := rstrip (lstrip s).

Definition is_digit (c : ascii) : bool :=
  let n := nat_of_ascii c in ((48 <=? n) && (n <=? 57))%nat.

Definition digit_val (c : ascii) : Z := Z.of_nat (nat_of_ascii c) - 48.

(** The digits of an [int] literal after its sign: decimal digits, with single
    underscores allowed between two digits.  [acc] is the value read so far,
    [prev] tells whether the previous character was a digit. *)
Fixpoint int_digits (s : string) (acc : Z) (prev : bool) : option Z :=
  match s with
  | EmptyString => if prev then Some acc else None
  | String c s' =>
      if is_digit c then int_digits s' (10 * acc + digit_val c) true
      else if Ascii.eqb c "_" then
        (if prev then
           match s' with
           | String d _ => if is_digit d then int_digits s' acc false else None
           | EmptyString => None
           end
         else None)
      else None
  end.

(** [int(s)] for a [str] argument, base 10: surrounding whitespace is
    ignored, one sign is allowed.  [None] stands for [ValueError]. *)
Definition parse_int (s : string) : option Z :=
  match strip s with
  | String "+" d => int_digits d 0 false
  | String "-" d => option_map Z.opp (int_digits d 0 false)
  | d => int_digits d 0 false
  end.

Definition int (s : string) : Outcome Z :=
  match parse_int s with
  | Some z => Return z
  | None => Raise (ValueError (InvalidLiteral s))
  end.

(** [str(n)] for an [int]. *)
Definition str (n : Z) : string :=
  DecimalString.NilZero.string_of_int (Z.to_int n).

(** [s.split(sep)] for a one-character separator. *)
Fixpoint split (sep : ascii) (s : string) : list string :=
  match s with
  | EmptyString => [EmptyString]
  | String c s' =>
      if Ascii.eqb c sep then EmptyString :: split sep s'
      else match split sep s' with
           | w :: ws => String c w :: ws
           | [] => [String c EmptyString]
           end
  end.

(** [sep.join(parts)] *)
Fixpoint join (sep : string) (parts : list string) : string :=
  match parts with
  | [] => ""
  | [p] => p
  | p :: ps => p ++ sep ++ join sep ps
  end.

(** [l[i]]: a negative index counts from the end, an index outside
    [-len(l) .. len(l)-1] raises [IndexError]. *)
Definition getitem {A} (l : list A) (i : Z) : Outcome A :=
  let n := Z.of_nat (List.length l) in
  let j := if i <? 0 then i + n else i in
  if (0 <=? j) && (j <? n) then
    match nth_error l (Z.to_nat j) with
    | Some a => Return a
    | None => Raise IndexError
    end
  else Raise IndexError.

(** [a % m] on [int]: the result has the sign of [m]. *)
Definition mod_ (a m : Z) : Outcome Z :=
  if m =? 0 then Raise ZeroDivisionError else Return (a mod m).

(** [x in l] for a list of [int]. *)
Definition contains (x : Z) (l : list Z) : bool := existsb (Z.eqb x) l.

(** [l.remove(x)]: removes the first occurrence. *)
Fixpoint remove (x : Z) (l : list Z) : list Z :=
  match l with
  | [] => []
  | y :: l' => if x =? y then l' else y :: remove x l'
  end.

(** [s.lower()], for code points below 256: the letters [A-Z] and the
    accented capitals [192 .. 222] other than the multiplication sign. *)
Definition lower_char (c : ascii) : ascii :=
  let n := nat_of_ascii c in
  if ((65 <=? n) && (n <=? 90)
      || (192 <=? n) && (n <=? 222) && negb (n =? 215))%nat
  then ascii_of_nat (n + 32) else c.

Fixpoint lower (s : string) : string :=
  match s with
  | EmptyString => EmptyString
  | String c s' => String (lower_char c) (lower s')
  end.

(** The line feed of the source's ["\n"]. *)
Definition nl : string := String (ascii_of_nat 10) EmptyString.

(** [repr] of a list of [int], as an f-string shows it: [[1, 2, 3]]. *)
Definition repr_list (l : list Z) : string :=
  "[" ++ join ", " (map str l) ++ "]".

End Py.

(* ================================================================= *)
(** ** [hashlib.sha3_256] and [hmac] *)

Module Hashlib.

Definition bytes := list byte.

Definition Z_of_byte (b : byte) : Z := Z.of_N (Byte.to_N b).

Definition byte_of_Z (z : Z) : byte :=
  match Byte.of_N (Z.to_N (z mod 256)) with
  | Some b => b
  | None => x00
  end.

(** *** Keccak-f[1600] on 25 lanes of 64 bits, lane [(x, y)] at [x + 5 y] *)

Definition lane_mask : Z := 2 ^ 64 - 1.

Definition ROL64 (a n : Z) : Z :=
  Z.lor (Z.land (Z.shiftl a n) lane_mask) (Z.shiftr a (64 - n)).

Definition lane (st : list Z) (x y : nat) : Z := nth (x + 5 * y) st 0.

Fixpoint set_nth (i : nat) (v : Z) (l : list Z) : list Z :=
  match l, i with
  | [], _ => []
  | _ :: l', O => v :: l'
  | a :: l', S i' => a :: set_nth i' v l'
  end.

Definition theta (st : list Z) : list Z :=
  let C x := Z.lxor (lane st x 0) (Z.lxor (lane st x 1)
               (Z.lxor (lane st x 2) (Z.lxor (lane st x 3) (lane st x 4)))) in
  let D x := Z.lxor (C ((x + 4) mod 5)%nat) (ROL64 (C ((x + 1) mod 5)%nat) 1) in
  map (fun i => Z.lxor (nth i st 0) (D (i mod 5)%nat)) (seq 0 25).

(** One step of the walk of rho and pi: the lane held in [cur] is rotated
    into the next position, whose previous content becomes [cur]. *)
Definition rho_pi_step (acc : nat * nat * Z * list Z) (t : nat)
  : nat * nat * Z * list Z :=
  let '(x, y, cur, st) := acc in
  let r := Z.of_nat (((t + 1) * (t + 2) / 2) mod 64) in
  let x' := y in
  let y' := ((2 * x + 3 * y) mod 5)%nat in
  (x', y', lane st x' y', set_nth (x' + 5 * y') (ROL64 cur r) st).

Definition rho_pi (st : list Z) : list Z :=
  snd (fold_left rho_pi_step (seq 0 24) (1%nat, 0%nat, lane st 1 0, st)).

Definition chi (st : list Z) : list Z :=
  map (fun i =>
         let x := (i mod 5)%nat in
         let y := (i / 5)%nat in
         Z.lxor (lane st x y)
           (Z.land (Z.lxor (lane st ((x + 1) mod 5) y) lane_mask)
                   (lane st ((x + 2) mod 5) y)))
      (seq 0 25).

(** The linear feedback shift register that yields the round constants. *)
Definition lfsr_step (l : Z) : bool * Z :=
  (Z.odd l,
   if Z.testbit l 7 then Z.lxor (Z.land (Z.shiftl l 1) 255) 113
   else Z.shiftl l 1).

Definition iota_step (acc : Z * Z) (j : nat) : Z * Z :=
  let '(l, rc) := acc in
  let '(b, l') := lfsr_step l in
  (l', if b then Z.lxor rc (Z.shiftl 1 (2 ^ Z.of_nat j - 1)) else rc).

Definition keccak_round (acc : Z * list Z) : Z * list Z :=
  let '(l, st) := acc in
  let st := chi (rho_pi (theta st)) in
  let '(l', rc) := fold_left iota_step (seq 0 7) (l, 0) in
  (l', set_nth 0 (Z.lxor (nth 0 st 0) rc) st).

Definition keccak_f (st : list Z) : list Z :=
  snd (Nat.iter 24 keccak_round (1, st)).

(** *** The sponge, with the parameters of SHA3-256 *)

Definition rate : nat := 136.

Definition lane_of_bytes (bs : bytes) : Z :=
  fold_right (fun b acc => Z_of_byte b + 256 * acc) 0 bs.

Definition bytes_of_lane (w : Z) : bytes :=
  map (fun i => byte_of_Z (Z.shiftr w (8 * Z.of_nat i))) (seq 0 8).

Fixpoint chunks (fuel n : nat) (l : bytes) : list bytes :=
  match fuel with
  | O => []
  | S fuel' =>
      match l with
      | [] => []
      | _ => firstn n l :: chunks fuel' n (skipn n l)
      end
  end.

Definition absorb (st : list Z) (block : bytes) : list Z :=
  let ls := map lane_of_bytes (chunks 17 8 block) in
  keccak_f (map (fun i => Z.lxor (nth i st 0) (nth i ls 0)) (seq 0 25)).

(** Domain suffix [01] of SHA-3 followed by the padding [10*1]. *)
Definition pad (m : bytes) : bytes :=
  let q := (rate - List.length m mod rate)%nat in
  if (q =? 1)%nat then (m ++ [x86])%list
  else (m ++ [x06] ++ repeat x00 (q - 2) ++ [x80])%list.

Definition sha3_256 (m : bytes) : bytes :=
  let p := pad m in
  let st := fold_left absorb (chunks (List.length p) rate p) (repeat 0 25) in
  firstn 32 (flat_map bytes_of_lane st).

(** *** [hmac.new(key, msg, hashlib.sha3_256)] *)

Definition block_size : nat := 136.

Definition xor_pad (c : Z) (k : bytes) : bytes :=
  map (fun b => byte_of_Z (Z.lxor (Z_of_byte b) c)) k.

Definition hmac_sha3_256 (key msg : bytes) : bytes :=
  let k := if (block_size <? List.length key)%nat then sha3_256 key else key in
  let k := (k ++ repeat x00 (block_size - List.length k))%list in
  sha3_256 (xor_pad 92 k ++ sha3_256 (xor_pad 54 k ++ msg))%list.

(** *** [bytes.hex()] and [hexdigest()]: lowercase, two digits per byte *)

Definition hex_digit (n : Z) : ascii :=
  ascii_of_nat (Z.to_nat (if n <? 10 then 48 + n else 87 + n)).

Definition hex (bs : bytes) : string :=
  fold_right (fun b s =>
                String (hex_digit (Z_of_byte b / 16))
                  (String (hex_digit (Z_of_byte b mod 16)) s))
             EmptyString bs.

Definition hexdigest (key msg : bytes) : string := hex (hmac_sha3_256 key msg).

(** [s.encode()] for text below code point 128, where UTF-8 is one byte per
    character. *)
Definition encode (s : string) : bytes := list_byte_of_string s.

End Hashlib.

(* ================================================================= *)
(** ** Python [float]: IEEE 754 binary64 *)

Module PyFloat.

Definition float := spec_float.

Definition prec : Z := 53.
Definition emax : Z := 1024.

(** An integer as the mantissa of a float that has not been rounded yet;
    only used as an operand of [SFdiv], which rounds the exact quotient. *)
Definition exact (z : Z) : float :=
  match z with
  | Z0 => S754_zero false
  | Zpos p => S754_finite false p 0
  | Zneg p => S754_finite true p 0
  end.

(** [a / b] on [int]: the float nearest to the exact quotient. *)
Definition truediv (a b : Z) : Outcome float :=
  if b =? 0 then Raise ZeroDivisionError
  else Return (SFdiv prec emax (exact a) (exact b)).

(** A decimal literal [num / 10^k] of the source, read as the nearest float. *)
Definition literal (num den : Z) : float :=
  SFdiv prec emax (exact num) (exact den).

Definition add (x y : float) : float := SFadd prec emax x y.

(** The integer nearest to [n / d], halves going to the even neighbour. *)
Definition div_half_even (n d : Z) : Z :=
  let q := n / d in
  let r := n mod d in
  match 2 * r ?= d with
  | Lt => q
  | Gt => q + 1
  | Eq => if Z.even q then q else q + 1
  end.

(** [round(x, ndigits)] for [ndigits >= 0]: the exact value of [x] is rounded
    to [ndigits] decimals, halves to even, and the decimal obtained is read
    back as the nearest float. *)
Definition round (x : float) (ndigits : nat) : float :=
  match x with
  | S754_finite s m e =>
      let p := 10 ^ Z.of_nat ndigits in
      let k := if 0 <=? e then Zpos m * 2 ^ e * p
               else div_half_even (Zpos m * p) (2 ^ (- e)) in
      match k with
      | Zpos k' => SFdiv prec emax (S754_finite s k' 0) (exact p)
      | _ => S754_zero s
      end
  | _ => x
  end.

(** [x > y] and [x >= y] *)
Definition gt (x y : float) : bool := SFltb y x.
Definition ge (x y : float) : bool := SFleb y x.

(** The real number a finite float stands for. *)
Definition value (x : float) : Q :=
  match x with
  | S754_finite s m e =>
      let a := if 0 <=? e then inject_Z (Zpos m * 2 ^ e)
               else Qmake (Zpos m) (Z.to_pos (2 ^ (- e))) in
      if s then Qopp a else a
  | _ => 0%Q
  end.

End PyFloat.

(* ================================================================= *)
(** ** The [secrets] module *)

(** The operating system's random source, as the two tapes it will deliver:
    the octets handed out by [token_bytes] and the draws behind [randbelow],
    with the number of each already used.  Every behaviour of the real source
    is the behaviour of some tape. *)
Module Secrets.

Record Source := mkSource {
  octets : nat -> byte;
  draws : nat -> Z;
  octets_used : nat;
  draws_used : nat
}.

(** [secrets.token_bytes(n)] *)
Definition token_bytes (n : nat) (src : Source) : Hashlib.bytes * Source :=
  (map (octets src) (seq (octets_used src) n),
   mkSource (octets src) (draws src) (octets_used src + n) (draws_used src)).

(** [secrets.randbelow(n)]: an integer in [0 .. n-1]; [ValueError] when [n]
    is not positive. *)
Definition randbelow (n : Z) (src : Source) : Outcome Z * Source :=
  if n <=? 0 then
    (Raise (ValueError (Text "Upper bound must be positive.")), src)
  else
    (Return (draws src (draws_used src) mod n),
     mkSource (octets src) (draws src) (octets_used src) (S (draws_used src))).

End Secrets.

(* ================================================================= *)
(** ** [class Dice] *)

Module Dice.

Record t := mk { values : list Z }.

(** [Dice.__init__] *)
Definition init (values : list Z) : Outcome t :=
  if negb (Nat.eqb (List.length values) 6) then
    Raise (ValueError (Text "Each die must have exactly 6 values."))
  else Return (mk values).

(** [Dice.roll] *)
Definition roll (self : t) (index : Z) : Outcome Z :=
  Py.getitem (values self) index.

End Dice.

(* ================================================================= *)
(** ** [class ProbabilityCalculator] *)

Fixpoint mapM {A B} (f : A -> Outcome B) (l : list A) : Outcome (list B) :=
  match l with
  | [] => Return []
  | a :: l' => b <- f a ;; bs <- mapM f l' ;; Return (b :: bs)
  end.

Inductive Colour := Green | Yellow | Red | Cyan.

(** A cell of the help table: plain text, coloured text, or a coloured
    probability shown with four decimals. *)
Inductive Cell :=
  | Plain (s : string)
  | Coloured (c : Colour) (s : string)
  | ColouredProb (c : Colour) (p : PyFloat.float).

(** What [tabulate] is given; the layout of the grid is not modelled. *)
Record Table := mkTable { headers : list string; rows : list (list Cell) }.

Module ProbabilityCalculator.

(** The body of the inner loop of [compare_dice], on the pair
    [(win_count, total_count)]. *)
Definition compare_faces (face_a : Z) (counts : Z * Z) (face_b : Z) : Z * Z :=
  let '(win_count, total_count) := counts in
  ((if face_a >? face_b then win_count + 1 else win_count), total_count + 1).

(** The two nested loops of [compare_dice]. *)
Definition count_outcomes (dice_a dice_b : Dice.t) : Z * Z :=
  fold_left (fun counts face_a =>
               fold_left (compare_faces face_a) (Dice.values dice_b) counts)
            (Dice.values dice_a) (0, 0).

Definition compare_dice (dice_a dice_b : Dice.t) : Outcome PyFloat.float :=
  let '(win_count, total_count) := count_outcomes dice_a dice_b in
  q <- PyFloat.truediv win_count total_count ;;
  Return (PyFloat.round q 4).

(** The literal [0.3333] written on the diagonal. *)
Definition tie_constant : PyFloat.float := PyFloat.literal 3333 10000.

Definition calculate_probabilities (dice : list Dice.t)
  : Outcome (list (list PyFloat.float)) :=
  let num_dice := List.length dice in
  mapM (fun i =>
          mapM (fun j =>
                  if Nat.eqb i j then Return tie_constant
                  else
                    a <- Py.getitem dice (Z.of_nat i) ;;
                    b <- Py.getitem dice (Z.of_nat j) ;;
                    compare_dice a b)
               (seq 0 num_dice))
       (seq 0 num_dice).

Definition colorize_probability (value : PyFloat.float) : Cell :=
  if PyFloat.gt value (PyFloat.literal 1 2) then ColouredProb Green value
  else if PyFloat.ge value (PyFloat.literal 33 100) then ColouredProb Yellow value
  else ColouredProb Red value.

Definition show_values (d : Dice.t) : string := Py.join "," (map Py.str (Dice.values d)).

Definition generate_help_table (dice : list Dice.t) : Outcome Table :=
  probabilities <- calculate_probabilities dice ;;
  let headers := "User dice v" :: map show_values dice in
  rows <- mapM (fun i =>
            dice_row <- Py.getitem dice (Z.of_nat i) ;;
            cells <- mapM (fun j =>
                       if Nat.eqb i j then Return (Coloured Cyan "- (0.3333)")
                       else
                         r <- Py.getitem probabilities (Z.of_nat i) ;;
                         p <- Py.getitem r (Z.of_nat j) ;;
                         Return (colorize_probability p))
                     (seq 0 (List.length dice)) ;;
            Return (Plain (show_values dice_row) :: cells))
          (seq 0 (List.length dice)) ;;
  Return (mkTable headers rows).

End ProbabilityCalculator.

(* ================================================================= *)
(** ** [class DiceParser] *)

Module DiceParser.

(** The body of the [try] block for one argument. *)
Definition parse_arg (arg : string) : Outcome Dice.t :=
  values <- mapM Py.int (Py.split "," arg) ;;
  Dice.init values.

(** The loop over the arguments: a [ValueError] of the [try] block is
    replaced by the one that names the argument. *)
Fixpoint parse_args (args : list string) : Outcome (list Dice.t) :=
  match args with
  | [] => Return []
  | arg :: args' =>
      match parse_arg arg with
      | Return d => ds <- parse_args args' ;; Return (d :: ds)
      | Raise (ValueError _) =>
          Raise (ValueError (Text ("Invalid dice configuration: " ++ arg)))
      | Raise e => Raise e
      | Exit c => Exit c
      end
  end.

Definition parse (args : list string) : Outcome (list Dice.t) :=
  if (List.length args <? 3)%nat then
    Raise (ValueError (Text "At least 3 dice configurations are required."))
  else parse_args args.

End DiceParser.

(* ================================================================= *)
(** ** [class FairRandomGenerator] *)

Module FairRandomGenerator.

Definition generate_fair_number (min_val max_val : Z) (src : Secrets.Source)
  : Outcome (Z * string * Hashlib.bytes) * Secrets.Source :=
  let '(secret_key, src) := Secrets.token_bytes 32 src in
  match Secrets.randbelow (max_val - min_val + 1) src with
  | (Return r, src) =>
      let computer_number := r + min_val in
      let hmac_value :=
        Hashlib.hexdigest secret_key (Hashlib.encode (Py.str computer_number)) in
      (Return (computer_number, hmac_value, secret_key), src)
  | (Raise e, src) => (Raise e, src)
  | (Exit c, src) => (Exit c, src)
  end.

End FairRandomGenerator.

(* ================================================================= *)
(** ** [class Game] *)

(** What the program writes: a [print]ed line, the prompt of an [input], or
    the help table. *)
Inductive Output :=
  | Line (s : string)
  | Prompt (s : string)
  | Grid (t : Table).

(** What an interactive step leaves: its outcome, the lines of standard input
    it has not read, the random source after it, and what it wrote. *)
Record Step (A : Type) := mkStep {
  outcome : Outcome A;
  unread : list string;
  source : Secrets.Source;
  written : list Output
}.
Arguments mkStep {A} outcome unread source written.
Arguments outcome {A} s.
Arguments unread {A} s.
Arguments source {A} s.
Arguments written {A} s.

(** A method that reads standard input and draws from the random source. *)
Definition Action (A : Type) : Type :=
  list string -> Secrets.Source -> Step A.

(** [s] after [out] has been written. *)
Definition after {A} (out : list Output) (s : Step A) : Step A :=
  mkStep (outcome s) (unread s) (source s) (out ++ written s)%list.

(** [m], then [k] on its result. *)
Definition and_then {A B} (m : Action A) (k : A -> Action B) : Action B :=
  fun stdin src =>
    let s := m stdin src in
    match outcome s with
    | Return a => after (written s) (k a (unread s) (source s))
    | Raise e => mkStep (Raise e) (unread s) (source s) (written s)
    | Exit c => mkStep (Exit c) (unread s) (source s) (written s)
    end.

(** Writes [out] and returns [a]. *)
Definition say {A} (out : list Output) (a : A) : Action A :=
  fun stdin src => mkStep (Return a) stdin src out.

Module Game.

Import Py.

Record t := mk {
  dice : list Dice.t;
  remaining_dice : list Z
}.

(** [Game.__init__] *)
Definition init (dice : list Dice.t) : t :=
  mk dice (map Z.of_nat (seq 0 (List.length dice))).

Definition help_option (self : t) : Outcome unit * list Output :=
  let out :=
    [ Line (nl ++ "Game Rules:");
      Line "Each dice has six faces with values as defined at the start.";
      Line "Your goal is to choose a dice with a higher probability of winning.";
      Line (nl ++ "Probability of the win for the user:") ] in
  match ProbabilityCalculator.generate_help_table (dice self) with
  | Return table => (Return tt, out ++ [Grid table])%list
  | Raise e => (Raise e, out)
  | Exit c => (Exit c, out)
  end.

Definition first_move_prompt : string :=
  "0 - 0" ++ nl ++ "1 - 1" ++ nl ++ "X - exit" ++ nl ++ "? - help" ++ nl
  ++ "Your selection: ".

Fixpoint determine_first_move (self : t) (stdin : list string)
    (src : Secrets.Source) {struct stdin} : Step string :=
  let out := [Line (nl ++ "Let's determine who makes the first move.")] in
  match FairRandomGenerator.generate_fair_number 0 1 src with
  | (Return (computer_number, hmac_value, secret_key), src) =>
      let out := (out ++
        [ Line ("I selected a random value in the range 0..1 (HMAC="
                ++ hmac_value ++ ").");
          Line "Try to guess my selection.";
          Prompt first_move_prompt ])%list in
      match stdin with
      | [] => mkStep (Raise EOFError) [] src out
      | line :: stdin =>
          let user_guess := strip line in
          if String.eqb (lower user_guess) "x" then
            mkStep (Exit 0) stdin src (out ++ [Line "Exiting the game."])%list
          else if String.eqb (lower user_guess) "?" then
            match help_option self with
            | (Return _, shown) =>
                after (out ++ shown) (determine_first_move self stdin src)
            | (Raise e, shown) => mkStep (Raise e) stdin src (out ++ shown)%list
            | (Exit c, shown) => mkStep (Exit c) stdin src (out ++ shown)%list
            end
          else
            let retry :=
              after (out ++ [Line "Invalid input. Please choose 0 or 1."])
                    (determine_first_move self stdin src) in
            match int user_guess with
            | Return user_guess =>
                if contains user_guess [0; 1] then
                  mkStep
                    (Return (if negb (computer_number =? user_guess)
                             then "computer" else "user"))
                    stdin src
                    (out ++ [Line ("My selection: " ++ str computer_number
                                   ++ " (KEY=" ++ Hashlib.hex secret_key
                                   ++ ").")])%list
                else retry
            | Raise (ValueError _) => retry
            | Raise e => mkStep (Raise e) stdin src out
            | Exit c => mkStep (Exit c) stdin src out
            end
      end
  | (Raise e, src) => mkStep (Raise e) stdin src out
  | (Exit c, src) => mkStep (Exit c) stdin src out
  end.

Definition computer_select_dice (self : t) (is_first : bool)
  : Outcome (t * (Dice.t * Z)) * list Output :=
  match remaining_dice self with
  | [] => (Raise IndexError, [])
  | computer_choice :: remaining =>
      match getitem (dice self) computer_choice with
      | Return computer_dice =>
          (Return (mk (dice self) remaining, (computer_dice, computer_choice)),
           if negb is_first then
             [Line ("I choose the ["
                    ++ ProbabilityCalculator.show_values computer_dice
                    ++ "] dice.")]
           else [])
      | Raise e => (Raise e, [])
      | Exit c => (Exit c, [])
      end
  end.

(** The loop that lists the dice still available; it stops where
    [self.dice[i]] raises. *)
Fixpoint list_remaining (self : t) (remaining : list Z)
  : Outcome unit * list Output :=
  match remaining with
  | [] => (Return tt, [])
  | i :: remaining' =>
      match getitem (dice self) i with
      | Return d =>
          let '(r, out) := list_remaining self remaining' in
          (r, Line (str i ++ " - " ++ ProbabilityCalculator.show_values d) :: out)
      | Raise e => (Raise e, [])
      | Exit c => (Exit c, [])
      end
  end.

Fixpoint user_select_dice (self : t) (stdin : list string)
    (src : Secrets.Source) {struct stdin} : Step (t * (Dice.t * Z)) :=
  let out := [Line (nl ++ "Choose your dice:")] in
  match list_remaining self (remaining_dice self) with
  | (Return _, listed) =>
      let out := (out ++ listed ++
        [Line "X - exit"; Line "? - help"; Prompt "Your selection: "])%list in
      match stdin with
      | [] => mkStep (Raise EOFError) [] src out
      | line :: stdin =>
          let selection := strip line in
          if String.eqb (lower selection) "x" then
            mkStep (Exit 0) stdin src (out ++ [Line "Exiting the game."])%list
          else if String.eqb (lower selection) "?" then
            match help_option self with
            | (Return _, shown) =>
                after (out ++ shown) (user_select_dice self stdin src)
            | (Raise e, shown) => mkStep (Raise e) stdin src (out ++ shown)%list
            | (Exit c, shown) => mkStep (Exit c) stdin src (out ++ shown)%list
            end
          else
            (* the [print] before the [try] block *)
            match (i <- int selection ;; getitem (dice self) i) with
            | Return chosen =>
                let out := (out ++
                  [Line ("You choose the " ++ repr_list (Dice.values chosen)
                         ++ " dice.")])%list in
                let retry :=
                  after (out ++ [Line "Invalid choice. Try again."])
                        (user_select_dice self stdin src) in
                match int selection with
                | Return index =>
                    if contains index (remaining_dice self) then
                      match getitem (dice self) index with
                      | Return d =>
                          mkStep
                            (Return (mk (dice self)
                                       (remove index (remaining_dice self)),
                                     (d, index)))
                            stdin src out
                      | Raise e => mkStep (Raise e) stdin src out
                      | Exit c => mkStep (Exit c) stdin src out
                      end
                    else retry
                | Raise (ValueError _) => retry
                | Raise e => mkStep (Raise e) stdin src out
                | Exit c => mkStep (Exit c) stdin src out
                end
            | Raise e => mkStep (Raise e) stdin src out
            | Exit c => mkStep (Exit c) stdin src out
            end
      end
  | (Raise e, listed) => mkStep (Raise e) stdin src (out ++ listed)%list
  | (Exit c, listed) => mkStep (Exit c) stdin src (out ++ listed)%list
  end.

Definition throw_prompt : string :=
  "Add your number modulo 6." ++ nl ++ "0 - 0" ++ nl ++ "1 - 1" ++ nl
  ++ "2 - 2" ++ nl ++ "3 - 3" ++ nl ++ "4 - 4" ++ nl ++ "5 - 5" ++ nl
  ++ "X - exit" ++ nl ++ "? - help" ++ nl ++ "Your selection: ".

Fixpoint play_throw (self : t) (dice : Dice.t) (is_user : bool)
    (stdin : list string) (src : Secrets.Source) {struct stdin} : Step Z :=
  let out := [Line (if is_user then nl ++ "It's time for your throw."
                    else nl ++ "It's time for my throw.")] in
  match FairRandomGenerator.generate_fair_number 0 5 src with
  | (Return (computer_number, hmac_value, secret_key), src) =>
      let out := (out ++
        [ Line ("I selected a random value in the range 0..5 (HMAC="
                ++ hmac_value ++ ").");
          Prompt throw_prompt ])%list in
      match stdin with
      | [] => mkStep (Raise EOFError) [] src out
      | line :: stdin =>
          let user_number := strip line in
          if String.eqb (lower user_number) "x" then
            mkStep (Exit 0) stdin src (out ++ [Line "Exiting the game."])%list
          else if String.eqb (lower user_number) "?" then
            match help_option self with
            | (Return _, shown) =>
                after (out ++ shown) (play_throw self dice is_user stdin src)
            | (Raise e, shown) => mkStep (Raise e) stdin src (out ++ shown)%list
            | (Exit c, shown) => mkStep (Exit c) stdin src (out ++ shown)%list
            end
          else
            let retry :=
              after (out ++ [Line "Invalid input. Try again."])
                    (play_throw self dice is_user stdin src) in
            match int user_number with
            | Return user_number =>
                if (0 <=? user_number) && (user_number <=? 5) then
                  let result := (computer_number + user_number) mod 6 in
                  mkStep (Dice.roll dice result) stdin src
                    (out ++
                     [ Line ("My number is " ++ str computer_number
                             ++ " (KEY=" ++ Hashlib.hex secret_key ++ ").");
                       Line ("The result is " ++ str computer_number ++ " + "
                             ++ str user_number ++ " = " ++ str result
                             ++ " (mod 6).") ])%list
                else retry
            | Raise (ValueError _) => retry
            | Raise e => mkStep (Raise e) stdin src out
            | Exit c => mkStep (Exit c) stdin src out
            end
      end
  | (Raise e, src) => mkStep (Raise e) stdin src out
  | (Exit c, src) => mkStep (Exit c) stdin src out
  end.

(** [computer_select_dice] as an action: it reads nothing and draws nothing. *)
Definition computer_step (self : t) (is_first : bool)
  : Action (t * (Dice.t * Z)) :=
  fun stdin src =>
    let '(r, out) := computer_select_dice self is_first in
    mkStep r stdin src out.

Definition start_game (self : t) : Action unit :=
  and_then (determine_first_move self) (fun first_mover =>
  and_then
    (if String.eqb first_mover "computer" then
       and_then (computer_step self true) (fun '(self, (computer_dice, _)) =>
       and_then (say [Line ("I make the first move and choose the "
                            ++ repr_list (Dice.values computer_dice)
                            ++ " dice.")] tt) (fun _ =>
       and_then (user_select_dice self) (fun '(self, (user_dice, _)) =>
       say [] (self, computer_dice, user_dice))))
     else
       and_then (say [Line "You make the first move."] tt) (fun _ =>
       and_then (user_select_dice self) (fun '(self, (user_dice, _)) =>
       and_then (computer_step self false) (fun '(self, (computer_dice, _)) =>
       say [] (self, computer_dice, user_dice)))))
    (fun '(self, computer_dice, user_dice) =>
  and_then (play_throw self computer_dice false) (fun computer_throw =>
  and_then (say [Line ("My throw is " ++ str computer_throw ++ ".")] tt) (fun _ =>
  and_then (play_throw self user_dice true) (fun user_throw =>
  and_then (say [Line ("Your throw is " ++ str user_throw ++ ".")] tt) (fun _ =>
  say [Line (if user_throw >? computer_throw then
               "You win (" ++ str user_throw ++ " > " ++ str computer_throw ++ ")!"
             else if user_throw <? computer_throw then
               "I win (" ++ str computer_throw ++ " > " ++ str user_throw ++ ")!"
             else
               "It's a tie (" ++ str user_throw ++ " = " ++ str computer_throw
               ++ ")!")] tt)))))).

End Game.

(* ================================================================= *)
(** ** [main] *)

(** The text of an exception, as [print(f"Error: {e}")] shows it; the literal
    of a failed [int] appears between quotes. *)
Definition show_message (m : Message) : string :=
  match m with
  | Text s => s
  | InvalidLiteral s => "invalid literal for int() with base 10: '" ++ s ++ "'"
  end.

(** [argv] is [sys.argv], the program's name first.  A [ValueError] ends the
    session with a message; any other exception leaves [main]. *)
Definition main (argv : list string) : Action unit :=
  fun stdin src =>
  if (List.length argv <? 2)%nat then
    mkStep (Return tt) stdin src
      [ Line "Usage: python game.py <dice_configurations>";
        Line "Example: python game.py 2,2,4,4,9,9 6,8,1,1,8,6 7,5,3,7,5,3" ]
  else
    let run :=
      match DiceParser.parse (tl argv) with
      | Return dice => Game.start_game (Game.init dice) stdin src
      | Raise e => mkStep (Raise e) stdin src []
      | Exit c => mkStep (Exit c) stdin src []
      end in
    match outcome run with
    | Raise (ValueError m) =>
        mkStep (Return tt) (unread run) (source run)
          (written run ++ [Line ("Error: " ++ show_message m)])%list
    | _ => run
    end.

(* ================================================================= *)
(** * Vocabulary of the properties *)

(** A random source, three dice and a command line used where a property is
    shown on a concrete run. *)
Definition sample_source : Secrets.Source :=
  Secrets.mkSource (fun i => Hashlib.byte_of_Z (Z.of_nat i * 37 + 11))
                   (fun i => nth i [7; 3; 10; 4] 0) 0 0.

Definition sample_dice : list Dice.t :=
  [Dice.mk [2; 2; 4; 4; 9; 9]; Dice.mk [6; 8; 1; 1; 8; 6]; Dice.mk [7; 5; 3; 7; 5; 3]].

Definition sample_game : Game.t := Game.init sample_dice.

Definition sample_argv : list string :=
  ["game.py"; "2,2,4,4,9,9"; "6,8,1,1,8,6"; "7,5,3,7,5,3"].

(** The characters [0-9a-f]. *)
Definition is_lower_hex (c : ascii) : bool :=
  let n := nat_of_ascii c in
  ((48 <=? n) && (n <=? 57) || (97 <=? n) && (n <=? 102))%nat.

(** The random source once [generate_fair_number] has drawn from it. *)
Definition next_source (min_val max_val : Z) (src : Secrets.Source)
  : Secrets.Source :=
  snd (FairRandomGenerator.generate_fair_number min_val max_val src).

(** The two tests every interactive step makes first: the line asks to leave
    ([x], [X]) or asks for help ([?]). *)
Definition is_command (line : string) : bool :=
  String.eqb (Py.lower (Py.strip line)) "x"
  || String.eqb (Py.lower (Py.strip line)) "?".

(** The guess [determine_first_move] accepts on a line, if any: an integer
    that is 0 or 1. *)
Definition accepted_guess (line : string) : option Z :=
  match Py.int (Py.strip line) with
  | Return u => if Py.contains u [0; 1] then Some u else None
  | _ => None
  end.

(** The digit [play_throw] accepts on a line, if any: an integer of 0..5. *)
Definition accepted_digit (line : string) : option Z :=
  match Py.int (Py.strip line) with
  | Return u => if (0 <=? u) && (u <=? 5) then Some u else None
  | _ => None
  end.

(** What [determine_first_move] has written when it reads the guess. *)
Definition first_move_challenge (tag : string) : list Output :=
  [ Line (Py.nl ++ "Let's determine who makes the first move.");
    Line ("I selected a random value in the range 0..1 (HMAC=" ++ tag ++ ").");
    Line "Try to guess my selection.";
    Prompt Game.first_move_prompt ].

(** What [play_throw] has written when it reads the digit. *)
Definition throw_challenge (is_user : bool) (tag : string) : list Output :=
  [ Line (if is_user then Py.nl ++ "It's time for your throw."
          else Py.nl ++ "It's time for my throw.");
    Line ("I selected a random value in the range 0..5 (HMAC=" ++ tag ++ ").");
    Prompt Game.throw_prompt ].

(** The number of elements of a list that pass a test. *)
Definition count {A} (f : A -> bool) (l : list A) : nat :=
  List.length (filter f l).

(** The ordered face pairs [(a, b)] of two dice with [a > b], and those with
    [a = b], counted over the product of the two face lists. *)
Definition wins (a b : list Z) : nat :=
  List.length (filter (fun p => fst p >? snd p) (list_prod a b)).

Definition ties (a b : list Z) : nat :=
  List.length (filter (fun p => fst p =? snd p) (list_prod a b)).

(** [round(w / t, 4)] for two counts. *)
Definition rounded_ratio (w t : nat) : PyFloat.float :=
  PyFloat.round
    (SFdiv PyFloat.prec PyFloat.emax
       (PyFloat.exact (Z.of_nat w)) (PyFloat.exact (Z.of_nat t))) 4.

(** The decimal with four digits nearest to [w / t], as a count of
    ten-thousandths. *)
Definition ten_thousandths (w t : nat) : Z :=
  PyFloat.div_half_even (Z.of_nat w * 10000) (Z.of_nat t).

(** The floats [0.5] and [1.0]. *)
Definition one_half : PyFloat.float := PyFloat.literal 1 2.
Definition one : PyFloat.float := PyFloat.literal 1 1.

Definition six_faced (d : Dice.t) : Prop := List.length (Dice.values d) = 6%nat.

Definition no_shared_face (a b : Dice.t) : Prop :=
  forall x, In x (Dice.values a) -> ~ In x (Dice.values b).

(** The sum of two rounded ratios out of 36 is within [1e-4] of the share of
    the pairs that do not tie. *)
Definition sum_within_tolerance (w1 w2 : nat) : bool :=
  Qle_bool
    (Qabs (PyFloat.value (PyFloat.add (rounded_ratio w1 36) (rounded_ratio w2 36))
           - (1 - (Z.of_nat (36 - w1 - w2) # 36))))
    (1 # 10000).

(** The entry of the probability matrix at row [i], column [j]. *)
Definition matrix_entry (m : list (list PyFloat.float)) (i j : nat)
  : option PyFloat.float :=
  match nth_error m i with
  | Some row => nth_error row j
  | None => None
  end.

(** The value of a decimal numeral read from its most significant digit, with
    [acc] the value of the digits already read. *)
Fixpoint uint_val (d : Decimal.uint) (acc : Z) : Z :=
  match d with
  | Decimal.Nil => acc
  | Decimal.D0 d => uint_val d (10 * acc)
  | Decimal.D1 d => uint_val d (10 * acc + 1)
  | Decimal.D2 d => uint_val d (10 * acc + 2)
  | Decimal.D3 d => uint_val d (10 * acc + 3)
  | Decimal.D4 d => uint_val d (10 * acc + 4)
  | Decimal.D5 d => uint_val d (10 * acc + 5)
  | Decimal.D6 d => uint_val d (10 * acc + 6)
  | Decimal.D7 d => uint_val d (10 * acc + 7)
  | Decimal.D8 d => uint_val d (10 * acc + 8)
  | Decimal.D9 d => uint_val d (10 * acc + 9)
  end.

(** Every character of a string passes a test. *)
Fixpoint all_chars (p : ascii -> bool) (s : string) : bool :=
  match s with
  | EmptyString => true
  | String c s' => p c && all_chars p s'
  end.

(** The characters of [str(n)]: digits and the minus sign. *)
Definition int_char (c : ascii) : bool := Py.is_digit c || Ascii.eqb c "-".

Definition no_comma (s : string) : bool :=
  all_chars (fun c => negb (Ascii.eqb c ",")) s.


(** The colour [colorize_probability] gives to a win count out of 36. *)
Definition colour_of_wins (w : nat) : Colour :=
  if (18 <? w)%nat then Green else if (12 <=? w)%nat then Yellow else Red.

(** Two win counts out of 36 and their rounded ratios compare alike. *)
Definition ratios_ordered_as_counts (w1 w2 : nat) : bool :=
  Bool.eqb (PyFloat.gt (rounded_ratio w1 36) (rounded_ratio w2 36))
           (w2 <? w1)%nat
  && Bool.eqb (SFeqb (rounded_ratio w1 36) (rounded_ratio w2 36))
              (w1 =? w2)%nat.

(** The cell of the help table at row [i], column [j], for six-faced dice. *)
Definition help_cell (dice : list Dice.t) (i j : nat) : Cell :=
  if Nat.eqb i j then Coloured Cyan "- (0.3333)"
  else ProbabilityCalculator.colorize_probability
         (rounded_ratio
            (wins (Dice.values (nth i dice (Dice.mk [])))
                  (Dice.values (nth j dice (Dice.mk [])))) 36).

(** The pool of a game in play: the remaining indices are increasing and
    each one is an index of [dice]. *)
Definition pool_ok (self : Game.t) : Prop :=
  StronglySorted Z.lt (Game.remaining_dice self) /\
  Forall (fun i => 0 <= i < Z.of_nat (List.length (Game.dice self)))
         (Game.remaining_dice self).


(** What [user_select_dice] has written when it reads the selection, in a
    game whose pool holds valid indices. *)
Definition selection_menu (self : Game.t) : list Output :=
  ([Line (Py.nl ++ "Choose your dice:")]
   ++ map (fun i =>
             Line (Py.str i ++ " - "
                   ++ ProbabilityCalculator.show_values
                        (nth (Z.to_nat i) (Game.dice self) (Dice.mk []))))
          (Game.remaining_dice self)
   ++ [Line "X - exit"; Line "? - help"; Prompt "Your selection: "])%list.

(* ================================================================= *)
(** * Properties *)

(* ----------------------------------------------------------------- *)
(** ** The digest and its hexadecimal form *)

Section Digest.

Import Hashlib.

Lemma set_nth_length i v l : List.length (set_nth i v l) = List.length l.
Proof.
  revert i; induction l as [|a l IH]; intros [|i]; simpl; auto.
Qed.

Lemma keccak_round_length acc : List.length (snd (keccak_round acc)) = 25%nat.
Proof.
  destruct acc as [l st]. unfold keccak_round.
  generalize (fold_left iota_step (seq 0 7) (l, 0)). intros [l' rc].
  cbv beta iota. unfold snd.
  rewrite set_nth_length. unfold chi. rewrite length_map. apply length_seq.
Qed.

Lemma keccak_f_length st : List.length (keccak_f st) = 25%nat.
Proof.
  unfold keccak_f. change 24%nat with (S 23). rewrite Nat.iter_succ.
  apply keccak_round_length.
Qed.

Lemma absorb_length st block : List.length (absorb st block) = 25%nat.
Proof. unfold absorb. apply keccak_f_length. Qed.

Lemma fold_left_length {A} (f : list Z -> A -> list Z) n :
  (forall st a, List.length (f st a) = n) ->
  forall l st, List.length st = n -> List.length (fold_left f l st) = n.
Proof.
  intros Hf l. induction l as [|a l IH]; intros st H; cbn [fold_left]; auto.
Qed.

Lemma absorb_all_length blocks st :
  List.length st = 25%nat -> List.length (fold_left absorb blocks st) = 25%nat.
Proof. apply fold_left_length. apply absorb_length. Qed.

Lemma flat_map_bytes_of_lane_length st :
  List.length (flat_map bytes_of_lane st) = (8 * List.length st)%nat.
Proof.
  induction st as [|w st IH]; [reflexivity|].
  cbn [flat_map List.length]. rewrite length_app, IH. unfold bytes_of_lane.
  rewrite length_map, length_seq. lia.
Qed.

Lemma sha3_256_length m : List.length (sha3_256 m) = 32%nat.
Proof.
  unfold sha3_256. rewrite length_firstn, flat_map_bytes_of_lane_length.
  rewrite absorb_all_length; [reflexivity | apply repeat_length].
Qed.

Lemma hmac_sha3_256_length key msg : List.length (hmac_sha3_256 key msg) = 32%nat.
Proof. unfold hmac_sha3_256. apply sha3_256_length. Qed.

Lemma hex_length bs : String.length (hex bs) = (2 * List.length bs)%nat.
Proof. induction bs as [|b bs IH]; simpl; auto. rewrite IH. lia. Qed.

Lemma hex_digits_lower b :
  is_lower_hex (hex_digit (Z_of_byte b / 16)) = true /\
  is_lower_hex (hex_digit (Z_of_byte b mod 16)) = true.
Proof. destruct b; vm_compute; split; reflexivity. Qed.

Lemma hex_lowercase bs : forallb is_lower_hex (list_ascii_of_string (hex bs)) = true.
Proof.
  induction bs as [|b bs IH]; [reflexivity|].
  destruct (hex_digits_lower b) as [Hh Hl].
  cbn [hex fold_right list_ascii_of_string forallb].
  fold (hex bs). now rewrite Hh, Hl, IH.
Qed.

End Digest.

(* ----------------------------------------------------------------- *)
(** ** [FairRandomGenerator.generate_fair_number] *)

(** The commitment [generate_fair_number] draws from a source: the next 32
    octets as key, the next draw reduced into the range as value. *)
Lemma generate_fair_number_draws min_val max_val src :
  min_val <= max_val ->
  let key := map (Secrets.octets src) (seq (Secrets.octets_used src) 32) in
  let value :=
    Secrets.draws src (Secrets.draws_used src) mod (max_val - min_val + 1)
    + min_val in
  FairRandomGenerator.generate_fair_number min_val max_val src =
  (Return (value, Hashlib.hexdigest key (Hashlib.encode (Py.str value)), key),
   Secrets.mkSource (Secrets.octets src) (Secrets.draws src)
     (Secrets.octets_used src + 32) (S (Secrets.draws_used src))).
Proof.
  intros Hle. unfold FairRandomGenerator.generate_fair_number.
  cbn [Secrets.token_bytes]. unfold Secrets.randbelow.
  destruct (max_val - min_val + 1 <=? 0) eqn:E; [apply Z.leb_le in E; lia|].
  reflexivity.
Qed.

(** C1. For [min_val <= max_val], [generate_fair_number] returns a value of
    the range, a key of 32 octets, and as tag the lowercase hexadecimal form
    (64 characters) of the HMAC-SHA3-256 digest of the value's decimal string
    under that key: recomputing the keyed hash from the revealed value and
    key gives the published tag. *)
Theorem generate_fair_number_tag_is_keyed_hash
    (min_val max_val : Z) (src : Secrets.Source) :
  min_val <= max_val ->
  exists value tag key src',
    FairRandomGenerator.generate_fair_number min_val max_val src
      = (Return (value, tag, key), src') /\
    tag = Hashlib.hex
            (Hashlib.hmac_sha3_256 key (Hashlib.encode (Py.str value))) /\
    List.length key = 32%nat /\
    min_val <= value <= max_val /\
    String.length tag = 64%nat /\
    forallb is_lower_hex (list_ascii_of_string tag) = true.
Proof.
  intros Hle.
  pose proof (generate_fair_number_draws min_val max_val src Hle) as H.
  cbv zeta in H. do 4 eexists. split; [exact H|].
  split; [reflexivity|].
  split; [now rewrite length_map, length_seq|].
  split.
  - pose proof (Z.mod_pos_bound
      (Secrets.draws src (Secrets.draws_used src)) (max_val - min_val + 1)).
    lia.
  - unfold Hashlib.hexdigest.
    rewrite hex_length, hmac_sha3_256_length. split; [reflexivity|].
    apply hex_lowercase.
Qed.

Lemma generate_fair_number_tag_is_keyed_hash_witness :
  0 <= 1 /\
  exists value tag key src',
    FairRandomGenerator.generate_fair_number 0 1 sample_source
      = (Return (value, tag, key), src') /\
    tag = Hashlib.hex
            (Hashlib.hmac_sha3_256 key (Hashlib.encode (Py.str value))) /\
    List.length key = 32%nat /\
    0 <= value <= 1 /\
    String.length tag = 64%nat /\
    forallb is_lower_hex (list_ascii_of_string tag) = true.
Proof.
  split; [lia|].
  apply (generate_fair_number_tag_is_keyed_hash 0 1 sample_source); lia.
Defined.

(* ----------------------------------------------------------------- *)
(** ** Reading a line: commands and numbers *)

Lemma lower_single c t :
  Py.lower (String c EmptyString) = String t EmptyString -> Py.lower_char c = t.
Proof. cbn. congruence. Qed.

(** A line [int] accepts is neither [x], [X] nor [?]. *)
Lemma int_not_command s u t :
  (t = "x"%char \/ t = "?"%char) ->
  Py.int s = Return u ->
  String.eqb (Py.lower s) (String t EmptyString) = false.
Proof.
  intros Ht H. destruct s as [|c [|d s']].
  - reflexivity.
  - destruct (String.eqb (Py.lower (String c "")) (String t "")) eqn:E;
      [|reflexivity].
    exfalso. apply String.eqb_eq in E. apply lower_single in E.
    revert H E. unfold Py.int.
    destruct Ht; subst t;
      destruct c as [[] [] [] [] [] [] [] []]; vm_compute; congruence.
  - cbn [Py.lower String.eqb]. destruct (Ascii.eqb _ _); reflexivity.
Qed.

Lemma int_is_not_command line u :
  Py.int (Py.strip line) = Return u -> is_command line = false.
Proof.
  intros H. unfold is_command.
  now rewrite (int_not_command _ u "x"%char), (int_not_command _ u "?"%char)
    by auto.
Qed.

Lemma is_command_false line :
  is_command line = false ->
  String.eqb (Py.lower (Py.strip line)) "x" = false /\
  String.eqb (Py.lower (Py.strip line)) "?" = false.
Proof. unfold is_command. intros H. now apply orb_false_iff in H. Qed.

Lemma accepted_guess_Some line u :
  accepted_guess line = Some u <->
  Py.int (Py.strip line) = Return u /\ (u = 0 \/ u = 1).
Proof.
  unfold accepted_guess, Py.contains. cbn [existsb].
  destruct (Py.int (Py.strip line)) as [v| |]; try (split; [|intros []]; discriminate).
  destruct (Z.eqb_spec v 0), (Z.eqb_spec v 1); cbn [orb]; split;
    try (intros [= <-]; split; [reflexivity|lia]);
    try (intros [[= ->] _]; reflexivity);
    try discriminate.
  intros [[= ->] ?]. lia.
Qed.

Lemma accepted_digit_Some line u :
  accepted_digit line = Some u <->
  Py.int (Py.strip line) = Return u /\ 0 <= u <= 5.
Proof.
  unfold accepted_digit.
  destruct (Py.int (Py.strip line)) as [v| |]; try (split; [|intros []]; discriminate).
  destruct (Z.leb_spec 0 v), (Z.leb_spec v 5); cbn [andb]; split;
    try (intros [= <-]; split; [reflexivity|lia]);
    try (intros [[= ->] _]; reflexivity);
    try discriminate; intros [[= ->] ?]; lia.
Qed.

(** [int] raises nothing but [ValueError]. *)
Lemma int_outcome s :
  (exists u, Py.int s = Return u) \/
  Py.int s = Raise (ValueError (InvalidLiteral s)).
Proof. unfold Py.int. destruct (Py.parse_int s); eauto. Qed.

Lemma generate_fair_number_range min_val max_val src value tag key src' :
  min_val <= max_val ->
  FairRandomGenerator.generate_fair_number min_val max_val src
    = (Return (value, tag, key), src') ->
  min_val <= value <= max_val /\ src' = next_source min_val max_val src.
Proof.
  intros Hle H. unfold next_source. rewrite H. split; [|reflexivity].
  rewrite (generate_fair_number_draws _ _ _ Hle) in H.
  injection H as <- _ _ _.
  pose proof (Z.mod_pos_bound
    (Secrets.draws src (Secrets.draws_used src)) (max_val - min_val + 1)).
  lia.
Qed.

Lemma generate_fair_number_total min_val max_val src :
  min_val <= max_val ->
  exists value tag key,
    FairRandomGenerator.generate_fair_number min_val max_val src
      = (Return (value, tag, key), next_source min_val max_val src).
Proof.
  intros Hle. unfold next_source.
  rewrite (generate_fair_number_draws _ _ _ Hle). cbn [snd]. eauto.
Qed.

(* ----------------------------------------------------------------- *)
(** ** [Game.determine_first_move], one line at a time *)

Ltac unfold_step Hg :=
  match goal with
  | |- context [Game.determine_first_move _ (_ :: _) _] =>
      cbn [Game.determine_first_move]
  | |- context [Game.play_throw _ _ _ (_ :: _) _] =>
      cbn [Game.play_throw]
  end;
  rewrite Hg.

Lemma determine_first_move_accepts self line stdin src u value tag key src' :
  FairRandomGenerator.generate_fair_number 0 1 src
    = (Return (value, tag, key), src') ->
  accepted_guess line = Some u ->
  Game.determine_first_move self (line :: stdin) src =
  mkStep (Return (if negb (value =? u) then "computer" else "user"))
    stdin src'
    (first_move_challenge tag ++
     [Line ("My selection: " ++ Py.str value ++ " (KEY=" ++ Hashlib.hex key
            ++ ").")])%list.
Proof.
  intros Hg Ha. apply accepted_guess_Some in Ha as [Hi Hu].
  destruct (is_command_false line (int_is_not_command _ _ Hi)) as [Hx Hq].
  unfold_step Hg. rewrite Hx, Hq, Hi.
  replace (Py.contains u [0; 1]) with true
    by (destruct Hu; subst u; reflexivity).
  reflexivity.
Qed.

Lemma determine_first_move_rejects self line stdin src value tag key src' :
  FairRandomGenerator.generate_fair_number 0 1 src
    = (Return (value, tag, key), src') ->
  is_command line = false ->
  accepted_guess line = None ->
  Game.determine_first_move self (line :: stdin) src =
  after (first_move_challenge tag ++
         [Line "Invalid input. Please choose 0 or 1."])
        (Game.determine_first_move self stdin src').
Proof.
  intros Hg Hc Ha. destruct (is_command_false line Hc) as [Hx Hq].
  unfold_step Hg. rewrite Hx, Hq.
  unfold accepted_guess in Ha.
  destruct (int_outcome (Py.strip line)) as [[u Hi]|Hi]; rewrite Hi in Ha |- *.
  - destruct (Py.contains u [0; 1]); [discriminate|reflexivity].
  - reflexivity.
Qed.

Lemma determine_first_move_helps self line stdin src value tag key src' :
  FairRandomGenerator.generate_fair_number 0 1 src
    = (Return (value, tag, key), src') ->
  String.eqb (Py.lower (Py.strip line)) "x" = false ->
  String.eqb (Py.lower (Py.strip line)) "?" = true ->
  Game.determine_first_move self (line :: stdin) src =
  match Game.help_option self with
  | (Return _, shown) =>
      after (first_move_challenge tag ++ shown)
            (Game.determine_first_move self stdin src')
  | (Raise e, shown) =>
      mkStep (Raise e) stdin src' (first_move_challenge tag ++ shown)%list
  | (Exit c, shown) =>
      mkStep (Exit c) stdin src' (first_move_challenge tag ++ shown)%list
  end.
Proof.
  intros Hg Hx Hq. unfold_step Hg. rewrite Hx, Hq.
  destruct (Game.help_option self) as [[r|e|c] shown]; reflexivity.
Qed.

Lemma determine_first_move_leaves self line stdin src :
  String.eqb (Py.lower (Py.strip line)) "x" = true ->
  outcome (Game.determine_first_move self (line :: stdin) src) = Exit 0.
Proof.
  intros Hx.
  destruct (generate_fair_number_total 0 1 src) as (v & t & k & Hg); [lia|].
  unfold_step Hg. now rewrite Hx.
Qed.

Lemma determine_first_move_eof self src :
  outcome (Game.determine_first_move self [] src) = Raise EOFError.
Proof.
  destruct (generate_fair_number_total 0 1 src) as (v & t & k & Hg); [lia|].
  cbn [Game.determine_first_move]. now rewrite Hg.
Qed.

Lemma iter_shift {A} (f : A -> A) n a : Nat.iter n f (f a) = Nat.iter (S n) f a.
Proof.
  induction n as [|n IH]; [reflexivity|].
  change (f (Nat.iter n f (f a)) = f (Nat.iter (S n) f a)). now rewrite IH.
Qed.

Lemma first_mover_cases value u :
  let mover := if negb (value =? u) then "computer" else "user" in
  (mover = "computer" <-> value <> u) /\ (mover = "user" <-> value = u).
Proof.
  cbv zeta. destruct (Z.eqb_spec value u); cbn [negb]; repeat split;
    intros; try discriminate; try reflexivity; try contradiction; congruence.
Qed.

(** C2. Whenever [determine_first_move] returns, it has accepted a guess of 0
    or 1 on some line, after drawing one commitment per line read; with the
    value of 0 or 1 committed before that line, the computer moves first if
    and only if the value differs from the guess, and the human moves first
    when they are equal. *)
Theorem first_mover_iff_guess_differs
    (self : Game.t) (stdin : list string) (src : Secrets.Source)
    (mover : string) :
  outcome (Game.determine_first_move self stdin src) = Return mover ->
  exists n line u value tag key src',
    nth_error stdin n = Some line /\
    accepted_guess line = Some u /\
    FairRandomGenerator.generate_fair_number 0 1
      (Nat.iter n (next_source 0 1) src) = (Return (value, tag, key), src') /\
    (value = 0 \/ value = 1) /\ (u = 0 \/ u = 1) /\
    (mover = "computer" <-> value <> u) /\
    (mover = "user" <-> value = u).
Proof.
  revert src. induction stdin as [|line stdin IH]; intros src H.
  - rewrite determine_first_move_eof in H. discriminate.
  - destruct (generate_fair_number_total 0 1 src) as (v & t & k & Hg); [lia|].
    assert (Hshift : forall n line' u value tag key src',
      nth_error stdin n = Some line' /\
      accepted_guess line' = Some u /\
      FairRandomGenerator.generate_fair_number 0 1
        (Nat.iter n (next_source 0 1) (next_source 0 1 src))
        = (Return (value, tag, key), src') /\
      (value = 0 \/ value = 1) /\ (u = 0 \/ u = 1) /\
      (mover = "computer" <-> value <> u) /\ (mover = "user" <-> value = u) ->
      exists m l0 u value tag key src',
        nth_error (line :: stdin) m = Some l0 /\
        accepted_guess l0 = Some u /\
        FairRandomGenerator.generate_fair_number 0 1
          (Nat.iter m (next_source 0 1) src) = (Return (value, tag, key), src') /\
        (value = 0 \/ value = 1) /\ (u = 0 \/ u = 1) /\
        (mover = "computer" <-> value <> u) /\ (mover = "user" <-> value = u)).
    { intros n line' u value tag key src' (Hn & Ha & Hgn & Hrest).
      exists (S n), line', u, value, tag, key, src'.
      rewrite <- iter_shift. auto. }
    destruct (String.eqb (Py.lower (Py.strip line)) "x") eqn:Hx.
    { rewrite (determine_first_move_leaves _ _ _ _ Hx) in H. discriminate. }
    destruct (String.eqb (Py.lower (Py.strip line)) "?") eqn:Hq.
    { rewrite (determine_first_move_helps _ _ _ _ _ _ _ _ Hg Hx Hq) in H.
      destruct (Game.help_option self) as [[r|e|c] shown]; try discriminate.
      destruct (IH _ H) as (n & l & u & v' & t' & k' & s' & Hall).
      eapply Hshift; eauto. }
    destruct (accepted_guess line) as [u|] eqn:Ha.
    + rewrite (determine_first_move_accepts _ _ _ _ _ _ _ _ _ Hg Ha) in H.
      cbn [outcome] in H. injection H as <-.
      exists 0%nat, line, u, v, t, k, (next_source 0 1 src).
      destruct (generate_fair_number_range 0 1 src v t k _ ltac:(lia) Hg)
        as [Hv _].
      apply accepted_guess_Some in Ha as Hu. destruct Hu as [_ Hu].
      repeat split; try reflexivity; try assumption; try lia;
        apply (first_mover_cases v u).
    + rewrite (determine_first_move_rejects _ _ _ _ _ _ _ _ Hg) in H;
        [|unfold is_command; now rewrite Hx, Hq | assumption].
      destruct (IH _ H) as (n & l & u & v' & t' & k' & s' & Hall).
      eapply Hshift; eauto.
Qed.

Lemma first_mover_iff_guess_differs_witness :
  outcome (Game.determine_first_move sample_game ["maybe"; "0"] sample_source)
    = Return "computer" /\
  exists n line u value tag key src',
    nth_error ["maybe"; "0"] n = Some line /\
    accepted_guess line = Some u /\
    FairRandomGenerator.generate_fair_number 0 1
      (Nat.iter n (next_source 0 1) sample_source)
      = (Return (value, tag, key), src') /\
    (value = 0 \/ value = 1) /\ (u = 0 \/ u = 1) /\
    ("computer" = "computer" <-> value <> u) /\
    ("computer" = "user" <-> value = u).
Proof.
  assert (H : outcome (Game.determine_first_move sample_game ["maybe"; "0"]
                         sample_source) = Return "computer")
    by (vm_compute; reflexivity).
  split; [exact H|].
  exact (first_mover_iff_guess_differs sample_game ["maybe"; "0"]
           sample_source "computer" H).
Defined.

(** C3, as the code has it.  When the accepted guess equals the committed
    value, [determine_first_move] returns ["user"]: the human moves first. *)
Theorem equal_guess_gives_human_first_move
    (self : Game.t) (line : string) (stdin : list string)
    (src : Secrets.Source) (value : Z) (tag : string) (key : Hashlib.bytes)
    (src' : Secrets.Source) :
  FairRandomGenerator.generate_fair_number 0 1 src
    = (Return (value, tag, key), src') ->
  accepted_guess line = Some value ->
  outcome (Game.determine_first_move self (line :: stdin) src) = Return "user".
Proof.
  intros Hg Ha.
  rewrite (determine_first_move_accepts _ _ _ _ _ _ _ _ _ Hg Ha).
  cbn [outcome]. now rewrite Z.eqb_refl.
Qed.

Lemma equal_guess_gives_human_first_move_witness :
  exists value tag key src',
    FairRandomGenerator.generate_fair_number 0 1 sample_source
      = (Return (value, tag, key), src') /\
    accepted_guess "1" = Some value /\
    outcome (Game.determine_first_move sample_game ["1"] sample_source)
      = Return "user".
Proof.
  pose proof (generate_fair_number_draws 0 1 sample_source ltac:(lia)) as Hg.
  cbv zeta in Hg.
  set (key := map _ _) in Hg. set (tag := Hashlib.hexdigest _ _) in Hg.
  set (src' := Secrets.mkSource _ _ _ _) in Hg.
  change (Secrets.draws sample_source (Secrets.draws_used sample_source)
          mod (1 - 0 + 1) + 0) with 1 in Hg.
  assert (Ha : accepted_guess "1" = Some 1) by reflexivity.
  exists 1, tag, key, src'.
  exact (conj Hg (conj Ha
    (equal_guess_gives_human_first_move sample_game "1" [] sample_source
       1 tag key src' Hg Ha))).
Defined.

(** C3, as the claim states it, fails: the source commits to 1, the human
    guesses 1, and the human is the first mover. *)
Lemma equal_guess_computer_first_counterexample :
  fst (FairRandomGenerator.generate_fair_number 0 1 sample_source)
    = Return (1, Hashlib.hexdigest (map (Secrets.octets sample_source) (seq 0 32))
                   (Hashlib.encode "1"),
              map (Secrets.octets sample_source) (seq 0 32)) /\
  accepted_guess "1" = Some 1 /\
  outcome (Game.determine_first_move sample_game ["1"] sample_source)
    = Return "user" /\
  outcome (Game.determine_first_move sample_game ["1"] sample_source)
    <> Return "computer".
Proof.
  assert (H : outcome (Game.determine_first_move sample_game ["1"] sample_source)
              = Return "user") by (vm_compute; reflexivity).
  split; [now rewrite generate_fair_number_draws by lia|].
  split; [reflexivity|]. split; [exact H|]. rewrite H. discriminate.
Qed.

(* ----------------------------------------------------------------- *)
(** ** [Game.play_throw], one line at a time *)

Lemma getitem_in_range {A} (l : list A) (i : Z) (d : A) :
  0 <= i < Z.of_nat (List.length l) ->
  Py.getitem l i = Return (nth (Z.to_nat i) l d).
Proof.
  intros Hi. unfold Py.getitem.
  destruct (Z.ltb_spec i 0); [lia|].
  destruct (Z.leb_spec 0 i); [|lia].
  destruct (Z.ltb_spec i (Z.of_nat (List.length l))); [|lia].
  cbn [andb]. rewrite (nth_error_nth' l d) by lia. reflexivity.
Qed.

Lemma play_throw_accepts self d is_user line stdin src u value tag key src' :
  FairRandomGenerator.generate_fair_number 0 5 src
    = (Return (value, tag, key), src') ->
  accepted_digit line = Some u ->
  Game.play_throw self d is_user (line :: stdin) src =
  mkStep (Dice.roll d ((value + u) mod 6)) stdin src'
    (throw_challenge is_user tag ++
     [ Line ("My number is " ++ Py.str value ++ " (KEY=" ++ Hashlib.hex key
             ++ ").");
       Line ("The result is " ++ Py.str value ++ " + " ++ Py.str u ++ " = "
             ++ Py.str ((value + u) mod 6) ++ " (mod 6).") ])%list.
Proof.
  intros Hg Ha. apply accepted_digit_Some in Ha as [Hi Hu].
  destruct (is_command_false line (int_is_not_command _ _ Hi)) as [Hx Hq].
  unfold_step Hg. rewrite Hx, Hq, Hi.
  destruct (Z.leb_spec 0 u); [|lia]. destruct (Z.leb_spec u 5); [|lia].
  reflexivity.
Qed.

Lemma play_throw_rejects self d is_user line stdin src value tag key src' :
  FairRandomGenerator.generate_fair_number 0 5 src
    = (Return (value, tag, key), src') ->
  is_command line = false ->
  accepted_digit line = None ->
  Game.play_throw self d is_user (line :: stdin) src =
  after (throw_challenge is_user tag ++ [Line "Invalid input. Try again."])
        (Game.play_throw self d is_user stdin src').
Proof.
  intros Hg Hc Ha. destruct (is_command_false line Hc) as [Hx Hq].
  unfold_step Hg. rewrite Hx, Hq.
  unfold accepted_digit in Ha.
  destruct (int_outcome (Py.strip line)) as [[u Hi]|Hi]; rewrite Hi in Ha |- *.
  - destruct ((0 <=? u) && (u <=? 5)); [discriminate|reflexivity].
  - reflexivity.
Qed.

(** C7. With the committed value [c] of 0..5 and an accepted digit [u] of
    0..5, [play_throw] on a six-faced die returns the face at index
    [(c + u) mod 6], which lies within the die; and [(a + b) % m] returns a
    result of [0 .. m-1] for all integers [a], [b] and every [m > 0]. *)
Theorem play_throw_returns_combined_face
    (self : Game.t) (d : Dice.t) (is_user : bool) (line : string)
    (stdin : list string) (src : Secrets.Source)
    (u value : Z) (tag : string) (key : Hashlib.bytes)
    (src' : Secrets.Source) :
  List.length (Dice.values d) = 6%nat ->
  FairRandomGenerator.generate_fair_number 0 5 src
    = (Return (value, tag, key), src') ->
  accepted_digit line = Some u ->
  0 <= value <= 5 /\ 0 <= u <= 5 /\
  0 <= (value + u) mod 6 < Z.of_nat (List.length (Dice.values d)) /\
  outcome (Game.play_throw self d is_user (line :: stdin) src)
    = Return (nth (Z.to_nat ((value + u) mod 6)) (Dice.values d) 0) /\
  In (nth (Z.to_nat ((value + u) mod 6)) (Dice.values d) 0) (Dice.values d) /\
  (forall a b m, 0 < m ->
     Py.mod_ (a + b) m = Return ((a + b) mod m) /\ 0 <= (a + b) mod m < m).
Proof.
  intros Hlen Hg Ha.
  destruct (generate_fair_number_range 0 5 src value tag key src'
              ltac:(lia) Hg) as [Hv _].
  pose proof (proj1 (accepted_digit_Some line u) Ha) as [_ Hu].
  pose proof (Z.mod_pos_bound (value + u) 6 ltac:(lia)) as Hr.
  rewrite Hlen.
  split; [exact Hv|]. split; [exact Hu|]. split; [lia|].
  split.
  - rewrite (play_throw_accepts _ _ _ _ _ _ _ _ _ _ _ Hg Ha).
    cbn [outcome]. unfold Dice.roll. apply getitem_in_range. lia.
  - split.
    + apply nth_In. lia.
    + intros a b m Hm. unfold Py.mod_.
      destruct (Z.eqb_spec m 0); [lia|].
      split; [reflexivity | apply Z.mod_pos_bound; lia].
Qed.

Lemma play_throw_returns_combined_face_witness :
  exists value tag key src',
    FairRandomGenerator.generate_fair_number 0 5 sample_source
      = (Return (value, tag, key), src') /\
    accepted_digit " 4 " = Some 4 /\
    outcome (Game.play_throw sample_game (Dice.mk [2; 2; 4; 4; 9; 9]) true
               [" 4 "] sample_source)
      = Return (nth (Z.to_nat ((value + 4) mod 6)) [2; 2; 4; 4; 9; 9] 0).
Proof.
  pose proof (generate_fair_number_draws 0 5 sample_source ltac:(lia)) as Hg.
  cbv zeta in Hg.
  set (key := map _ _) in Hg. set (tag := Hashlib.hexdigest _ _) in Hg.
  set (src' := Secrets.mkSource _ _ _ _) in Hg.
  change (Secrets.draws sample_source (Secrets.draws_used sample_source)
          mod (5 - 0 + 1) + 0) with 1 in Hg.
  assert (Ha : accepted_digit " 4 " = Some 4) by reflexivity.
  exists 1, tag, key, src'.
  exact (conj Hg (conj Ha
    (proj1 (proj2 (proj2 (proj2
       (play_throw_returns_combined_face sample_game
          (Dice.mk [2; 2; 4; 4; 9; 9]) true " 4 " [] sample_source
          4 1 tag key src' eq_refl Hg Ha))))))).
Defined.

(* ----------------------------------------------------------------- *)
(** ** Retrying a step *)

Lemma next_source_counters min_val max_val src :
  min_val <= max_val ->
  next_source min_val max_val src =
  Secrets.mkSource (Secrets.octets src) (Secrets.draws src)
    (Secrets.octets_used src + 32) (S (Secrets.draws_used src)).
Proof.
  intros Hle. unfold next_source.
  now rewrite (generate_fair_number_draws _ _ _ Hle).
Qed.

(** C9, as the code has it.  A line that is neither a command nor an accepted
    number makes [determine_first_move] and [play_throw] start over: the step
    writes its challenge with the tag already published, reports the invalid
    input, and runs again on the rest of the input with the random source
    advanced past the published commitment, so that the retried step commits
    to the next 32 octets and the next draw and the key of the first
    commitment is never revealed. *)
Theorem retry_draws_fresh_commitment
    (self : Game.t) (d : Dice.t) (is_user : bool) (line : string)
    (stdin : list string) (src : Secrets.Source) :
  is_command line = false ->
  (accepted_guess line = None ->
   exists value tag key,
     FairRandomGenerator.generate_fair_number 0 1 src
       = (Return (value, tag, key), next_source 0 1 src) /\
     Game.determine_first_move self (line :: stdin) src =
     after (first_move_challenge tag ++
            [Line "Invalid input. Please choose 0 or 1."])
           (Game.determine_first_move self stdin (next_source 0 1 src))) /\
  (accepted_digit line = None ->
   exists value tag key,
     FairRandomGenerator.generate_fair_number 0 5 src
       = (Return (value, tag, key), next_source 0 5 src) /\
     Game.play_throw self d is_user (line :: stdin) src =
     after (throw_challenge is_user tag ++ [Line "Invalid input. Try again."])
           (Game.play_throw self d is_user stdin (next_source 0 5 src))) /\
  (forall hi, 0 <= hi ->
     Secrets.octets_used (next_source 0 hi src)
       = (Secrets.octets_used src + 32)%nat /\
     Secrets.draws_used (next_source 0 hi src) = S (Secrets.draws_used src)).
Proof.
  intros Hc. split; [|split].
  - intros Ha.
    destruct (generate_fair_number_total 0 1 src) as (v & t & k & Hg); [lia|].
    exists v, t, k. split; [exact Hg|].
    exact (determine_first_move_rejects _ _ _ _ _ _ _ _ Hg Hc Ha).
  - intros Ha.
    destruct (generate_fair_number_total 0 5 src) as (v & t & k & Hg); [lia|].
    exists v, t, k. split; [exact Hg|].
    exact (play_throw_rejects _ _ _ _ _ _ _ _ _ _ Hg Hc Ha).
  - intros hi Hhi. rewrite next_source_counters by lia. split; reflexivity.
Qed.

Lemma retry_draws_fresh_commitment_witness :
  is_command "maybe" = false /\
  accepted_guess "maybe" = None /\
  exists value tag key,
    FairRandomGenerator.generate_fair_number 0 1 sample_source
      = (Return (value, tag, key), next_source 0 1 sample_source) /\
    Game.determine_first_move sample_game ["maybe"; "0"] sample_source =
    after (first_move_challenge tag ++
           [Line "Invalid input. Please choose 0 or 1."])
          (Game.determine_first_move sample_game ["0"]
             (next_source 0 1 sample_source)).
Proof.
  split; [reflexivity|]. split; [reflexivity|].
  exact (proj1 (retry_draws_fresh_commitment sample_game
                  (Dice.mk [2; 2; 4; 4; 9; 9]) true "maybe" ["0"]
                  sample_source eq_refl) eq_refl).
Defined.

(** C9, as the claim states it, fails: after the rejected line the step
    publishes a second tag, different from the first, and the key it reveals
    is the key of the second commitment, not of the first. *)
Lemma retry_keeps_commitment_counterexample :
  exists v1 t1 k1 v2 t2 k2,
    fst (FairRandomGenerator.generate_fair_number 0 1 sample_source)
      = Return (v1, t1, k1) /\
    fst (FairRandomGenerator.generate_fair_number 0 1
           (next_source 0 1 sample_source)) = Return (v2, t2, k2) /\
    String.eqb t1 t2 = false /\
    String.eqb (Hashlib.hex k1) (Hashlib.hex k2) = false /\
    written (Game.determine_first_move sample_game ["maybe"; "0"] sample_source)
    = (first_move_challenge t1
       ++ [Line "Invalid input. Please choose 0 or 1."]
       ++ first_move_challenge t2
       ++ [Line ("My selection: " ++ Py.str v2 ++ " (KEY=" ++ Hashlib.hex k2
                 ++ ").")])%list.
Proof.
  do 6 eexists.
  split; [vm_compute; reflexivity|].
  split; [vm_compute; reflexivity|].
  split; [vm_compute; reflexivity|].
  split; vm_compute; reflexivity.
Qed.

(* ----------------------------------------------------------------- *)
(** ** [Game.user_select_dice] on a line that is not a number *)

(** The [print] that precedes the [try] block converts the line itself: when
    the line is not an integer literal, its [ValueError] leaves the step. *)
Lemma user_select_dice_raises_on_text self line stdin src listed r :
  Game.list_remaining self (Game.remaining_dice self) = (Return r, listed) ->
  is_command line = false ->
  Py.parse_int (Py.strip line) = None ->
  Game.user_select_dice self (line :: stdin) src =
  mkStep (Raise (ValueError (InvalidLiteral (Py.strip line)))) stdin src
    ([Line (Py.nl ++ "Choose your dice:")] ++ listed ++
     [Line "X - exit"; Line "? - help"; Prompt "Your selection: "])%list.
Proof.
  intros Hl Hc Hp. destruct (is_command_false line Hc) as [Hx Hq].
  cbn [Game.user_select_dice]. rewrite Hl, Hx, Hq.
  unfold Py.int. rewrite Hp. reflexivity.
Qed.

(** C8, on the code.  In [user_select_dice] the line [maybe] raises
    [ValueError] out of the step instead of prompting again, and the line [7]
    raises [IndexError]; in a whole session the first ends the game with an
    error message and leaves the rest of the input unread, the second leaves
    [main] as an uncaught exception. *)
Theorem user_select_dice_malformed_input_escapes :
  outcome (Game.user_select_dice sample_game ["maybe"; "1"] sample_source)
    = Raise (ValueError (InvalidLiteral "maybe")) /\
  unread (Game.user_select_dice sample_game ["maybe"; "1"] sample_source)
    = ["1"] /\
  outcome (Game.user_select_dice sample_game ["7"; "1"] sample_source)
    = Raise IndexError /\
  outcome (main sample_argv ["1"; "maybe"; "2"] sample_source) = Return tt /\
  unread (main sample_argv ["1"; "maybe"; "2"] sample_source) = ["2"] /\
  last (written (main sample_argv ["1"; "maybe"; "2"] sample_source)) (Line "")
    = Line "Error: invalid literal for int() with base 10: 'maybe'" /\
  outcome (main sample_argv ["1"; "7"; "2"] sample_source) = Raise IndexError.
Proof. repeat split; vm_compute; reflexivity. Qed.

(* ----------------------------------------------------------------- *)
(** ** [Dice.__init__] and [DiceParser.parse] *)

Lemma Dice_init_Return vals d :
  Dice.init vals = Return d -> Dice.values d = vals /\ List.length vals = 6%nat.
Proof.
  unfold Dice.init. destruct (Nat.eqb_spec (List.length vals) 6); cbn [negb];
    [|discriminate].
  intros [= <-]. auto.
Qed.

Lemma Dice_init_Raise vals :
  List.length vals <> 6%nat ->
  Dice.init vals = Raise (ValueError (Text "Each die must have exactly 6 values.")).
Proof.
  intros H. unfold Dice.init.
  destruct (Nat.eqb_spec (List.length vals) 6); [contradiction|reflexivity].
Qed.

(** [list(map(int, parts))] returns as many integers as there are parts, or
    raises the [ValueError] of the first part that is not a literal. *)
Lemma mapM_int_outcome parts :
  (exists vals, mapM Py.int parts = Return vals /\
                List.length vals = List.length parts) \/
  (exists m, mapM Py.int parts = Raise (ValueError m)).
Proof.
  induction parts as [|p parts IH]; [left; exists []; auto|].
  cbn [mapM]. destruct (int_outcome p) as [[u Hu]|Hu]; rewrite Hu; cbn [bind].
  - destruct IH as [(vals & -> & Hlen)|(m & ->)]; cbn [bind].
    + left. exists (u :: vals). cbn [List.length]. auto.
    + right. eauto.
  - right. eauto.
Qed.

Lemma parse_arg_outcome arg :
  (exists d, DiceParser.parse_arg arg = Return d /\
             List.length (Dice.values d) = 6%nat /\
             List.length (Py.split "," arg) = 6%nat) \/
  (exists m, DiceParser.parse_arg arg = Raise (ValueError m)).
Proof.
  unfold DiceParser.parse_arg.
  destruct (mapM_int_outcome (Py.split "," arg)) as [(vals & -> & Hlen)|(m & ->)];
    cbn [bind]; [|right; eauto].
  destruct (Nat.eq_dec (List.length vals) 6) as [H6|H6].
  - left. exists (Dice.mk vals). unfold Dice.init. rewrite H6. cbn.
    repeat split; congruence.
  - right. rewrite (Dice_init_Raise _ H6). eauto.
Qed.

Lemma parse_args_six args ds :
  DiceParser.parse_args args = Return ds ->
  Forall (fun d => List.length (Dice.values d) = 6%nat) ds.
Proof.
  revert ds. induction args as [|arg args IH]; intros ds; cbn [DiceParser.parse_args].
  - intros [= <-]. constructor.
  - destruct (parse_arg_outcome arg) as [(d & -> & H6 & _)|(m & ->)];
      [|discriminate].
    destruct (DiceParser.parse_args args) as [ds'| |]; cbn [bind]; try discriminate.
    intros [= <-]. constructor; auto.
Qed.

Lemma parse_args_rejects_first arg args :
  List.length (Py.split "," arg) <> 6%nat ->
  DiceParser.parse_args (arg :: args)
  = Raise (ValueError (Text ("Invalid dice configuration: " ++ arg))).
Proof.
  intros H. cbn [DiceParser.parse_args].
  destruct (parse_arg_outcome arg) as [(d & _ & _ & H6)|(m & ->)];
    [contradiction|reflexivity].
Qed.

(** C10. [Dice.__init__] raises [ValueError] on a list whose length is not 6
    and otherwise keeps the list, so a die has exactly 6 faces; every die
    [DiceParser.parse] returns has 6 faces; and [parse] raises [ValueError]
    on every argument list whose arguments all have the same number [k] of
    comma-separated parts with [k] other than 6, such as four dice of five
    faces. *)
Theorem face_count_is_six (vals : list Z) (args : list string) (k : nat) :
  (List.length vals <> 6%nat ->
   Dice.init vals
   = Raise (ValueError (Text "Each die must have exactly 6 values."))) /\
  (forall d, Dice.init vals = Return d ->
             Dice.values d = vals /\ List.length (Dice.values d) = 6%nat) /\
  (forall ds, DiceParser.parse args = Return ds ->
              Forall (fun d => List.length (Dice.values d) = 6%nat) ds) /\
  (k <> 6%nat ->
   Forall (fun arg => List.length (Py.split "," arg) = k) args ->
   exists m, DiceParser.parse args = Raise (ValueError m)) /\
  DiceParser.parse ["1,2,3,4,5"; "1,2,3,4,5"; "1,2,3,4,5"; "1,2,3,4,5"]
  = Raise (ValueError (Text "Invalid dice configuration: 1,2,3,4,5")).
Proof.
  split; [apply Dice_init_Raise|].
  split.
  { intros d H. destruct (Dice_init_Return _ _ H) as [Hv Hl].
    split; [exact Hv | now rewrite Hv]. }
  split.
  { intros ds. unfold DiceParser.parse.
    destruct (List.length args <? 3)%nat; [discriminate|].
    apply parse_args_six. }
  split; [|reflexivity].
  intros Hk Hall. unfold DiceParser.parse.
  destruct (List.length args <? 3)%nat eqn:E; [eauto|].
  destruct args as [|arg args]; [discriminate|].
  inversion Hall as [|? ? Harg _]; subst.
  rewrite parse_args_rejects_first by congruence. eauto.
Qed.

(* ----------------------------------------------------------------- *)
(** ** Counting face pairs *)

Section Counting.

Variable A : Type.

Lemma count_app (f : A -> bool) l l' :
  count f (l ++ l')%list = (count f l + count f l')%nat.
Proof. unfold count. now rewrite filter_app, length_app. Qed.

Lemma count_cons (f : A -> bool) x l :
  count f (x :: l) = (Nat.b2n (f x) + count f l)%nat.
Proof. unfold count. cbn [filter]. destruct (f x); reflexivity. Qed.

(** Three tests of which exactly one holds on every element split a list. *)
Lemma count_three (f g h : A -> bool) l :
  (forall x, Nat.b2n (f x) + Nat.b2n (g x) + Nat.b2n (h x) = 1)%nat ->
  (count f l + count g l + count h l = List.length l)%nat.
Proof.
  intros H. induction l as [|x l IH]; [reflexivity|].
  rewrite !count_cons. cbn [List.length]. specialize (H x). lia.
Qed.

End Counting.

Lemma count_map {A B} (f : B -> bool) (g : A -> B) l :
  count f (map g l) = count (fun x => f (g x)) l.
Proof.
  induction l as [|x l IH]; [reflexivity|].
  cbn [map]. rewrite !count_cons. now rewrite IH.
Qed.

Lemma count_prod_cons {A B} (f : A * B -> bool) x (a : list A) (b : list B) :
  count f (list_prod (x :: a) b)
  = (count (fun y => f (x, y)) b + count f (list_prod a b))%nat.
Proof. cbn [list_prod]. now rewrite count_app, count_map. Qed.

Lemma count_prod_cons_r {A B} (f : A * B -> bool) y (a : list A) (b : list B) :
  count f (list_prod a (y :: b))
  = (count (fun x => f (x, y)) a + count f (list_prod a b))%nat.
Proof.
  induction a as [|x a IH]; [reflexivity|].
  rewrite !count_prod_cons, IH, !count_cons. lia.
Qed.

(** Counting over [b x a] is counting over [a x b] with the pairs swapped. *)
Lemma count_prod_swap {A B} (f : B * A -> bool) (a : list A) (b : list B) :
  count f (list_prod b a) = count (fun p => f (snd p, fst p)) (list_prod a b).
Proof.
  induction b as [|y b IH]; cbn [list_prod].
  - induction a as [|x a IHa]; [reflexivity|].
    rewrite count_prod_cons. cbn. exact IHa.
  - change (map (fun z => (y, z)) a ++ list_prod b a)%list
      with (list_prod (y :: b) a).
    rewrite count_prod_cons, count_prod_cons_r, IH. reflexivity.
Qed.

Lemma wins_cons x a b :
  wins (x :: a) b = (count (fun y => (x >? y)%Z) b + wins a b)%nat.
Proof. unfold wins. apply (count_prod_cons (fun p => fst p >? snd p)). Qed.

Lemma ties_cons x a b :
  ties (x :: a) b = (count (fun y => (x =? y)%Z) b + ties a b)%nat.
Proof. unfold ties. apply (count_prod_cons (fun p => fst p =? snd p)). Qed.

(** Every ordered pair is a win of the first die, a win of the second, or a
    tie. *)
Lemma wins_ties_total a b :
  (wins a b + wins b a + ties a b = List.length a * List.length b)%nat.
Proof.
  unfold wins at 2. fold (count (fun p => fst p >? snd p) (list_prod b a)).
  rewrite (count_prod_swap (fun p => fst p >? snd p) a b).
  cbn [fst snd]. rewrite <- length_prod. unfold wins, ties.
  fold (count (fun p => fst p >? snd p) (list_prod a b)).
  fold (count (fun p => fst p =? snd p) (list_prod a b)).
  rewrite <- (count_three _ (fun p => fst p >? snd p)
                (fun p : Z * Z => snd p >? fst p) (fun p => fst p =? snd p)).
  - reflexivity.
  - intros [x y]. cbn [fst snd].
    destruct (Z.gtb_spec x y), (Z.gtb_spec y x), (Z.eqb_spec x y); cbn; lia.
Qed.

Lemma count_In_pos x b : In x b -> (1 <= count (fun y => (x =? y)%Z) b)%nat.
Proof.
  induction b as [|y b IH]; [intros []|].
  rewrite count_cons. intros [->|H]; [rewrite Z.eqb_refl; cbn; lia|].
  specialize (IH H). lia.
Qed.

Lemma ties_incl a b : incl a b -> (List.length a <= ties a b)%nat.
Proof.
  induction a as [|x a IH]; intros H; [cbn; lia|].
  rewrite ties_cons. cbn [List.length].
  pose proof (count_In_pos x b (H x (or_introl eq_refl))).
  specialize (IH (fun y Hy => H y (or_intror Hy))). lia.
Qed.

Lemma count_none {A} (f : A -> bool) l :
  (forall x, In x l -> f x = false) -> count f l = 0%nat.
Proof.
  induction l as [|x l IH]; intros H; [reflexivity|].
  rewrite count_cons, (H x (or_introl eq_refl)), IH; [reflexivity|].
  intros y Hy. apply H. now right.
Qed.

Lemma ties_disjoint a b :
  (forall x, In x a -> ~ In x b) -> ties a b = 0%nat.
Proof.
  intros H. unfold ties. apply (count_none (fun p => fst p =? snd p)).
  intros [x y] Hin. apply in_prod_iff in Hin as [Hx Hy]. cbn [fst snd].
  destruct (Z.eqb_spec x y) as [->|]; [|reflexivity].
  exfalso. exact (H y Hx Hy).
Qed.

(** A die compared with itself wins at most 15 of the 36 pairs. *)
Lemma wins_self_six a : List.length a = 6%nat -> (wins a a <= 15)%nat.
Proof.
  intros H6. pose proof (wins_ties_total a a) as Ht.
  pose proof (ties_incl a a (incl_refl a)) as Hi. rewrite H6 in *. lia.
Qed.

(* ----------------------------------------------------------------- *)
(** ** [ProbabilityCalculator.compare_dice] *)

Lemma inner_loop face_a b w t :
  fold_left (ProbabilityCalculator.compare_faces face_a) b (w, t)
  = (w + Z.of_nat (count (fun y => face_a >? y) b),
     t + Z.of_nat (List.length b)).
Proof.
  revert w t. induction b as [|y b IH]; intros w t.
  - cbn. f_equal; lia.
  - cbn [fold_left ProbabilityCalculator.compare_faces].
    rewrite IH, count_cons. cbn [List.length].
    destruct (face_a >? y); cbn [Nat.b2n]; f_equal; lia.
Qed.

Lemma outer_loop a b w t :
  fold_left (fun counts face_a =>
               fold_left (ProbabilityCalculator.compare_faces face_a) b counts)
            a (w, t)
  = (w + Z.of_nat (wins a b), t + Z.of_nat (List.length a * List.length b)).
Proof.
  revert w t. induction a as [|x a IH]; intros w t.
  - cbn. f_equal; lia.
  - cbn [fold_left]. rewrite inner_loop, IH, wins_cons. cbn [List.length].
    f_equal; lia.
Qed.

Lemma count_outcomes_counts dice_a dice_b :
  ProbabilityCalculator.count_outcomes dice_a dice_b
  = (Z.of_nat (wins (Dice.values dice_a) (Dice.values dice_b)),
     Z.of_nat (List.length (Dice.values dice_a)
               * List.length (Dice.values dice_b))).
Proof. unfold ProbabilityCalculator.count_outcomes. now rewrite outer_loop. Qed.

Lemma compare_dice_rounded_ratio dice_a dice_b :
  (List.length (Dice.values dice_a) * List.length (Dice.values dice_b) <> 0)%nat ->
  ProbabilityCalculator.compare_dice dice_a dice_b
  = Return (rounded_ratio
              (wins (Dice.values dice_a) (Dice.values dice_b))
              (List.length (Dice.values dice_a)
               * List.length (Dice.values dice_b))).
Proof.
  intros Hn. unfold ProbabilityCalculator.compare_dice.
  rewrite count_outcomes_counts. unfold PyFloat.truediv.
  destruct (Z.eqb_spec
    (Z.of_nat (List.length (Dice.values dice_a)
               * List.length (Dice.values dice_b))) 0); [lia|].
  reflexivity.
Qed.

(** Out of 36 pairs, the float [round(w / 36, 4)] is the float nearest to the
    decimal with four digits nearest to [w / 36]: rounding the quotient to a
    float first loses nothing. *)
Lemma rounded_ratio_36_decimal w :
  (w <= 36)%nat ->
  rounded_ratio w 36 = PyFloat.literal (ten_thousandths w 36) 10000.
Proof.
  intros Hw.
  assert (H : map (fun w => rounded_ratio w 36) (seq 0 37)
            = map (fun w => PyFloat.literal (ten_thousandths w 36) 10000)
                  (seq 0 37)) by (vm_compute; reflexivity).
  apply (proj1 (map_ext_in_iff) H w). apply in_seq. lia.
Qed.

Lemma compare_dice_six dice_a dice_b :
  six_faced dice_a -> six_faced dice_b ->
  ProbabilityCalculator.compare_dice dice_a dice_b
  = Return (rounded_ratio (wins (Dice.values dice_a) (Dice.values dice_b)) 36)
  /\ (wins (Dice.values dice_a) (Dice.values dice_b)
      + wins (Dice.values dice_b) (Dice.values dice_a)
      + ties (Dice.values dice_a) (Dice.values dice_b) = 36)%nat.
Proof.
  unfold six_faced. intros Ha Hb.
  pose proof (wins_ties_total (Dice.values dice_a) (Dice.values dice_b)) as Ht.
  rewrite compare_dice_rounded_ratio by (rewrite Ha, Hb; discriminate).
  rewrite Ha, Hb in *. split; [reflexivity | exact Ht].
Qed.

(** C4. For two dice with non-empty face lists, [compare_dice] returns the
    number of ordered face pairs [(a, b)] with [a > b], divided by the product
    of the two numbers of faces, rounded by [round(_, 4)]; for two six-faced
    dice this is the float nearest to the four-digit decimal nearest to the
    exact quotient.  As a function of the two face lists it is deterministic. *)
Theorem compare_dice_is_rounded_win_ratio (dice_a dice_b : Dice.t) :
  Dice.values dice_a <> [] -> Dice.values dice_b <> [] ->
  ProbabilityCalculator.compare_dice dice_a dice_b
  = Return (rounded_ratio
              (wins (Dice.values dice_a) (Dice.values dice_b))
              (List.length (Dice.values dice_a)
               * List.length (Dice.values dice_b))) /\
  (six_faced dice_a -> six_faced dice_b ->
   ProbabilityCalculator.compare_dice dice_a dice_b
   = Return (PyFloat.literal
               (ten_thousandths
                  (wins (Dice.values dice_a) (Dice.values dice_b)) 36)
               10000)).
Proof.
  intros Ha Hb. split.
  - apply compare_dice_rounded_ratio.
    destruct (Dice.values dice_a), (Dice.values dice_b); cbn; congruence.
  - intros H6a H6b. destruct (compare_dice_six _ _ H6a H6b) as [-> Ht].
    rewrite rounded_ratio_36_decimal by lia. reflexivity.
Qed.

Lemma compare_dice_is_rounded_win_ratio_witness :
  ProbabilityCalculator.compare_dice
    (Dice.mk [2; 2; 4; 4; 9; 9]) (Dice.mk [1; 1; 6; 6; 8; 8])
  = Return (rounded_ratio 20 36) /\
  ProbabilityCalculator.compare_dice
    (Dice.mk [2; 2; 4; 4; 9; 9]) (Dice.mk [1; 1; 6; 6; 8; 8])
  = Return (PyFloat.literal 5556 10000).
Proof.
  pose proof (compare_dice_is_rounded_win_ratio
                (Dice.mk [2; 2; 4; 4; 9; 9]) (Dice.mk [1; 1; 6; 6; 8; 8])
                ltac:(discriminate) ltac:(discriminate)) as [H1 H2].
  split; [exact H1 | exact (H2 eq_refl eq_refl)].
Defined.

(* ----------------------------------------------------------------- *)
(** ** [ProbabilityCalculator.calculate_probabilities] *)

Lemma mapM_Return {A B} (f : A -> Outcome B) (g : A -> B) l :
  (forall a, In a l -> f a = Return (g a)) -> mapM f l = Return (map g l).
Proof.
  induction l as [|a l IH]; intros H; [reflexivity|].
  cbn [mapM map]. rewrite (H a (or_introl eq_refl)). cbn [bind].
  rewrite IH by (intros; apply H; now right). reflexivity.
Qed.

Lemma nth_error_tabulate {B} (g : nat -> B) n i :
  (i < n)%nat -> nth_error (map g (seq 0 n)) i = Some (g i).
Proof.
  intros Hi. rewrite nth_error_map.
  rewrite (nth_error_nth' (seq 0 n) 0%nat) by (now rewrite length_seq).
  rewrite seq_nth by assumption. reflexivity.
Qed.

Lemma getitem_nat {A} (l : list A) i a :
  nth_error l i = Some a -> Py.getitem l (Z.of_nat i) = Return a.
Proof.
  intros H. pose proof (proj1 (nth_error_Some l i) ltac:(congruence)) as Hi.
  rewrite (getitem_in_range l (Z.of_nat i) a) by lia.
  rewrite Nat2Z.id. f_equal. now apply nth_error_nth.
Qed.

(** The entry the two loops of [calculate_probabilities] compute. *)
Lemma matrix_cell dice i j a b :
  Forall six_faced dice ->
  nth_error dice i = Some a -> nth_error dice j = Some b ->
  (if Nat.eqb i j then Return ProbabilityCalculator.tie_constant
   else x <- Py.getitem dice (Z.of_nat i) ;;
        y <- Py.getitem dice (Z.of_nat j) ;;
        ProbabilityCalculator.compare_dice x y)
  = Return (if Nat.eqb i j then ProbabilityCalculator.tie_constant
            else rounded_ratio (wins (Dice.values a) (Dice.values b)) 36).
Proof.
  intros Hall Ha Hb. destruct (Nat.eqb i j); [reflexivity|].
  rewrite (getitem_nat _ _ _ Ha), (getitem_nat _ _ _ Hb). cbn [bind].
  apply compare_dice_six;
    eapply (proj1 (Forall_forall _ _) Hall), nth_error_In; eassumption.
Qed.

Lemma calculate_probabilities_matrix dice :
  Forall six_faced dice ->
  ProbabilityCalculator.calculate_probabilities dice
  = Return
      (map (fun i =>
         map (fun j =>
            if Nat.eqb i j then ProbabilityCalculator.tie_constant
            else rounded_ratio
                   (wins (Dice.values (nth i dice (Dice.mk [])))
                         (Dice.values (nth j dice (Dice.mk [])))) 36)
           (seq 0 (List.length dice)))
         (seq 0 (List.length dice))).
Proof.
  intros Hall. unfold ProbabilityCalculator.calculate_probabilities.
  apply mapM_Return. intros i Hi. apply in_seq in Hi.
  apply mapM_Return. intros j Hj. apply in_seq in Hj.
  apply matrix_cell; [assumption| |]; apply nth_error_nth'; lia.
Qed.

Lemma self_comparison_values w :
  (w <= 15)%nat ->
  rounded_ratio w 36 <> one_half /\
  PyFloat.gt (rounded_ratio w 36) (PyFloat.literal 4167 10000) = false.
Proof.
  intros Hw.
  assert (H : forallb (fun w =>
                match rounded_ratio w 36 with
                | S754_finite false m e =>
                    negb (Pos.eqb m 4503599627370496 && Z.eqb e (-53))
                | S754_zero false => true
                | _ => false
                end
                && negb (PyFloat.gt (rounded_ratio w 36)
                                    (PyFloat.literal 4167 10000)))
              (seq 0 16) = true) by (vm_compute; reflexivity).
  pose proof (proj1 (forallb_forall _ _) H w ltac:(apply in_seq; lia)) as Hc.
  apply andb_true_iff in Hc as [Hne Hgt]. split.
  - intros E. rewrite E in Hne. vm_compute in Hne. discriminate.
  - now apply negb_true_iff in Hgt.
Qed.

(** C5, as the code has it.  For dice of six faces [calculate_probabilities]
    returns a matrix whose diagonal entries are the constant [0.3333],
    whatever the die, and whose other entries are [compare_dice] of the two
    dice; [compare_dice] of a die of the set against itself is never [0.5]
    and never above [0.4167]. *)
Theorem diagonal_is_constant (dice : list Dice.t) :
  Forall six_faced dice ->
  exists m,
    ProbabilityCalculator.calculate_probabilities dice = Return m /\
    (forall i, (i < List.length dice)%nat ->
       matrix_entry m i i = Some (PyFloat.literal 3333 10000)) /\
    (forall i j a b, i <> j ->
       nth_error dice i = Some a -> nth_error dice j = Some b ->
       exists p, ProbabilityCalculator.compare_dice a b = Return p /\
                 matrix_entry m i j = Some p) /\
    (forall d, In d dice ->
       exists p, ProbabilityCalculator.compare_dice d d = Return p /\
                 p <> one_half /\
                 PyFloat.gt p (PyFloat.literal 4167 10000) = false).
Proof.
  intros Hall. eexists. split; [apply calculate_probabilities_matrix, Hall|].
  split; [|split].
  - intros i Hi. unfold matrix_entry.
    rewrite nth_error_tabulate by assumption.
    rewrite nth_error_tabulate by assumption.
    now rewrite Nat.eqb_refl.
  - intros i j a b Hij Ha Hb.
    pose proof (proj1 (nth_error_Some dice i) ltac:(congruence)) as Hi.
    pose proof (proj1 (nth_error_Some dice j) ltac:(congruence)) as Hj.
    pose proof (proj1 (Forall_forall _ _) Hall) as Hsix.
    destruct (compare_dice_six a b) as [Hc _];
      [eapply Hsix, nth_error_In; eassumption ..|].
    eexists. split; [exact Hc|].
    unfold matrix_entry.
    rewrite nth_error_tabulate by assumption.
    rewrite nth_error_tabulate by assumption.
    destruct (Nat.eqb_spec i j); [contradiction|].
    now rewrite (nth_error_nth _ _ _ Ha), (nth_error_nth _ _ _ Hb).
  - intros d Hd.
    pose proof (proj1 (Forall_forall _ _) Hall d Hd) as H6.
    destruct (compare_dice_six d d H6 H6) as [Hc _].
    eexists. split; [exact Hc|].
    apply self_comparison_values, wins_self_six, H6.
Qed.

Lemma diagonal_is_constant_witness :
  exists m,
    ProbabilityCalculator.calculate_probabilities sample_dice = Return m /\
    matrix_entry m 0 0 = Some (PyFloat.literal 3333 10000) /\
    matrix_entry m 1 1 = Some (PyFloat.literal 3333 10000) /\
    matrix_entry m 2 2 = Some (PyFloat.literal 3333 10000).
Proof.
  destruct (diagonal_is_constant sample_dice) as (m & Hm & Hd & _).
  - repeat constructor.
  - exists m. split; [exact Hm|].
    split; [|split]; apply Hd; cbn; lia.
Defined.

(** C5, as the claim states it, fails: for the die [1,2,3,4,5,6] the diagonal
    entry is [0.3333] while [compare_dice] of the die against itself gives
    [0.4167], and neither is [0.5]. *)
Lemma diagonal_is_self_comparison_counterexample :
  exists m,
    ProbabilityCalculator.calculate_probabilities
      [Dice.mk [1; 2; 3; 4; 5; 6]; Dice.mk [1; 2; 3; 4; 5; 6];
       Dice.mk [2; 2; 4; 4; 9; 9]] = Return m /\
    matrix_entry m 0 0 = Some (S754_finite false 6004199023210345 (-54)) /\
    ProbabilityCalculator.compare_dice
      (Dice.mk [1; 2; 3; 4; 5; 6]) (Dice.mk [1; 2; 3; 4; 5; 6])
    = Return (S754_finite false 7506599858901143 (-54)) /\
    PyFloat.literal 3333 10000 = S754_finite false 6004199023210345 (-54) /\
    PyFloat.literal 4167 10000 = S754_finite false 7506599858901143 (-54) /\
    one_half = S754_finite false 4503599627370496 (-53).
Proof.
  eexists. split; [vm_compute; reflexivity|].
  repeat split; vm_compute; reflexivity.
Qed.

(* ----------------------------------------------------------------- *)
(** ** The two directions of a comparison *)

Lemma all_sums_within_tolerance w1 w2 :
  (w1 + w2 <= 36)%nat -> sum_within_tolerance w1 w2 = true.
Proof.
  intros Hw.
  assert (H : forallb (fun w1 =>
                forallb (sum_within_tolerance w1) (seq 0 (37 - w1)))
              (seq 0 37) = true) by (vm_compute; reflexivity).
  pose proof (proj1 (forallb_forall _ _) H w1 ltac:(apply in_seq; lia)) as H1.
  exact (proj1 (forallb_forall _ _) H1 w2 ltac:(apply in_seq; lia)).
Qed.

Lemma complementary_sums_are_one w :
  (w <= 36)%nat ->
  PyFloat.add (rounded_ratio w 36) (rounded_ratio (36 - w) 36) = one.
Proof.
  intros Hw.
  assert (H : map (fun w => PyFloat.add (rounded_ratio w 36)
                                        (rounded_ratio (36 - w) 36))
                  (seq 0 37)
            = map (fun _ => one) (seq 0 37)) by (vm_compute; reflexivity).
  apply (proj1 (map_ext_in_iff) H w). apply in_seq. lia.
Qed.

(** C6, as the code has it.  For two six-faced dice the float sum
    [compare_dice(A, B) + compare_dice(B, A)] is within [1e-4] of 1 minus the
    share of the 36 ordered face pairs that tie; when the dice share no face
    value the sum is the float [1.0]. *)
Theorem compare_dice_sum_within_tolerance (dice_a dice_b : Dice.t) :
  six_faced dice_a -> six_faced dice_b ->
  exists p q,
    ProbabilityCalculator.compare_dice dice_a dice_b = Return p /\
    ProbabilityCalculator.compare_dice dice_b dice_a = Return q /\
    (Qabs (PyFloat.value (PyFloat.add p q)
           - (1 - (Z.of_nat (ties (Dice.values dice_a) (Dice.values dice_b)) # 36)))
     <= 1 # 10000)%Q /\
    (no_shared_face dice_a dice_b -> PyFloat.add p q = one).
Proof.
  intros Ha Hb.
  destruct (compare_dice_six _ _ Ha Hb) as [Hp Ht].
  destruct (compare_dice_six _ _ Hb Ha) as [Hq _].
  set (w1 := wins (Dice.values dice_a) (Dice.values dice_b)) in *.
  set (w2 := wins (Dice.values dice_b) (Dice.values dice_a)) in *.
  set (t := ties (Dice.values dice_a) (Dice.values dice_b)) in *.
  exists (rounded_ratio w1 36), (rounded_ratio w2 36).
  split; [exact Hp|]. split; [exact Hq|]. split.
  - pose proof (all_sums_within_tolerance w1 w2 ltac:(lia)) as H.
    unfold sum_within_tolerance in H. apply Qle_bool_iff in H.
    replace (36 - w1 - w2)%nat with t in H by lia. exact H.
  - intros Hns.
    assert (Ht0 : t = 0%nat) by (apply ties_disjoint, Hns).
    replace w2 with (36 - w1)%nat by lia.
    apply complementary_sums_are_one. lia.
Qed.

Lemma compare_dice_sum_within_tolerance_witness :
  exists p q,
    ProbabilityCalculator.compare_dice
      (Dice.mk [2; 2; 4; 4; 9; 9]) (Dice.mk [1; 1; 6; 6; 8; 8]) = Return p /\
    ProbabilityCalculator.compare_dice
      (Dice.mk [1; 1; 6; 6; 8; 8]) (Dice.mk [2; 2; 4; 4; 9; 9]) = Return q /\
    (Qabs (PyFloat.value (PyFloat.add p q)
           - (1 - (Z.of_nat (ties [2; 2; 4; 4; 9; 9]%Z [1; 1; 6; 6; 8; 8]%Z) # 36)))
     <= 1 # 10000)%Q.
Proof.
  destruct (compare_dice_sum_within_tolerance
              (Dice.mk [2; 2; 4; 4; 9; 9]) (Dice.mk [1; 1; 6; 6; 8; 8])
              eq_refl eq_refl) as (p & q & Hp & Hq & Htol & _).
  exists p, q. exact (conj Hp (conj Hq Htol)).
Defined.

(** C6, as the claim states it without a tolerance, fails: for the dice
    [1,1,1,1,1,1] and [1,1,1,1,1,2], 30 of the 36 pairs tie; the two results
    are [0.0] and [0.1667], and their sum is not [1 - 30/36]. *)
Lemma compare_dice_sum_exact_counterexample :
  ProbabilityCalculator.compare_dice
    (Dice.mk [1; 1; 1; 1; 1; 1]) (Dice.mk [1; 1; 1; 1; 1; 2])
  = Return (S754_zero false) /\
  ProbabilityCalculator.compare_dice
    (Dice.mk [1; 1; 1; 1; 1; 2]) (Dice.mk [1; 1; 1; 1; 1; 1])
  = Return (PyFloat.literal 1667 10000) /\
  ties [1; 1; 1; 1; 1; 1] [1; 1; 1; 1; 1; 2] = 30%nat /\
  Qeq_bool
    (PyFloat.value (PyFloat.add (S754_zero false) (PyFloat.literal 1667 10000)))
    (1 - (30 # 36)) = false.
Proof. repeat split; vm_compute; reflexivity. Qed.

(* ================================================================= *)
(** * Further properties *)

(* ----------------------------------------------------------------- *)
(** ** [int] and [str], [split] and [join] *)

Lemma int_digits_uint d acc prev :
  (d <> Decimal.Nil \/ prev = true) ->
  Py.int_digits (DecimalString.NilEmpty.string_of_uint d) acc prev = Some (uint_val d acc).
Proof.
  revert acc prev.
  induction d; intros acc prev H;
    try (cbn [DecimalString.NilEmpty.string_of_uint Py.int_digits uint_val];
         match goal with
         | |- context [if Py.is_digit ?c then _ else _] =>
             change (Py.is_digit c) with true
         end; cbv iota;
         match goal with
         | |- context [Py.digit_val ?c] =>
             let v := eval vm_compute in (Py.digit_val c) in
             change (Py.digit_val c) with v
         end;
         rewrite ?Z.add_0_r; apply IHd; now right).
  destruct H as [H | ->]; [contradiction|reflexivity].
Qed.

Lemma uint_val_acc d acc :
  uint_val d (Z.pos acc) = Z.pos (Pos.of_uint_acc d acc).
Proof.
  revert acc. induction d; intros acc; cbn [uint_val Pos.of_uint_acc];
    [reflexivity| ..];
    match goal with
    | |- uint_val _ ?z = Z.pos (Pos.of_uint_acc _ ?p) =>
        replace z with (Z.pos p) by lia; apply IHd
    end.
Qed.

Lemma uint_val_of_uint d : uint_val d 0 = Z.of_N (Pos.of_uint d).
Proof.
  induction d; cbn [uint_val Pos.of_uint]; [reflexivity|exact IHd| ..];
    cbn [Z.of_N]; rewrite <- uint_val_acc; reflexivity.
Qed.

Lemma string_of_uint_nonnil d :
  d <> Decimal.Nil -> DecimalString.NilZero.string_of_uint d = DecimalString.NilEmpty.string_of_uint d.
Proof. destruct d; [contradiction|reflexivity ..]. Qed.

Lemma str_pos p : Py.str (Z.pos p) = DecimalString.NilEmpty.string_of_uint (Pos.to_uint p).
Proof. apply string_of_uint_nonnil, DecimalPos.Unsigned.to_uint_nonnil. Qed.

Lemma str_neg p :
  Py.str (Z.neg p) = String "-" (DecimalString.NilEmpty.string_of_uint (Pos.to_uint p)).
Proof.
  unfold Py.str. cbn [Z.to_int DecimalString.NilZero.string_of_int].
  now rewrite string_of_uint_nonnil by apply DecimalPos.Unsigned.to_uint_nonnil.
Qed.

Lemma all_chars_weaken (p q : ascii -> bool) s :
  (forall c, p c = true -> q c = true) ->
  all_chars p s = true -> all_chars q s = true.
Proof.
  intros Hpq. induction s as [|c s IH]; [reflexivity|].
  cbn [all_chars]. intros H. apply andb_true_iff in H as [Hc Hs].
  now rewrite (Hpq c Hc), IH.
Qed.

Lemma int_char_not_space c : int_char c = true -> negb (Py.isspace c) = true.
Proof. destruct c as [[] [] [] [] [] [] [] []]; vm_compute; congruence. Qed.

Lemma int_char_not_comma c : int_char c = true -> Ascii.eqb c "," = false.
Proof. destruct c as [[] [] [] [] [] [] [] []]; vm_compute; congruence. Qed.

Lemma rstrip_id s :
  all_chars (fun c => negb (Py.isspace c)) s = true -> Py.rstrip s = s.
Proof.
  induction s as [|c s IH]; [reflexivity|].
  cbn [all_chars Py.rstrip]. intros H. apply andb_true_iff in H as [Hc Hs].
  rewrite (IH Hs). apply negb_true_iff in Hc. rewrite Hc.
  destruct s; reflexivity.
Qed.

Lemma strip_id s :
  all_chars (fun c => negb (Py.isspace c)) s = true -> Py.strip s = s.
Proof.
  intros H. unfold Py.strip.
  replace (Py.lstrip s) with s; [now apply rstrip_id|].
  destruct s as [|c s]; [reflexivity|].
  cbn [all_chars] in H. apply andb_true_iff in H as [Hc _].
  apply negb_true_iff in Hc. cbn [Py.lstrip]. now rewrite Hc.
Qed.

Lemma uint_digits d : all_chars Py.is_digit (DecimalString.NilEmpty.string_of_uint d) = true.
Proof. induction d; cbn [DecimalString.NilEmpty.string_of_uint all_chars]; auto. Qed.

Lemma str_chars n : all_chars int_char (Py.str n) = true.
Proof.
  assert (Hd : forall d, all_chars int_char (DecimalString.NilEmpty.string_of_uint d) = true).
  { intros d. apply (all_chars_weaken Py.is_digit); [|apply uint_digits].
    intros c Hc. unfold int_char. now rewrite Hc. }
  destruct n as [|p|p]; [reflexivity| |].
  - rewrite str_pos. apply Hd.
  - rewrite str_neg. cbn [all_chars]. now rewrite Hd.
Qed.

(** [int(str(n))] is [n]. *)
Lemma int_str n : Py.int (Py.str n) = Return n.
Proof.
  unfold Py.int, Py.parse_int.
  rewrite strip_id
    by (apply (all_chars_weaken int_char); [apply int_char_not_space|apply str_chars]).
  destruct n as [|p|p]; [reflexivity| |].
  - rewrite str_pos.
    pose proof (int_digits_uint (Pos.to_uint p) 0 false
                  (or_introl (DecimalPos.Unsigned.to_uint_nonnil p))) as Hi.
    rewrite uint_val_of_uint, DecimalPos.Unsigned.of_to in Hi. cbn [Z.of_N] in Hi.
    pose proof (uint_digits (Pos.to_uint p)) as Hd.
    destruct (DecimalString.NilEmpty.string_of_uint (Pos.to_uint p)) as [|c s] eqn:E.
    + now rewrite Hi.
    + cbn [all_chars] in Hd. apply andb_true_iff in Hd as [Hc _].
      destruct c as [[] [] [] [] [] [] [] []]; try discriminate Hc;
        now rewrite Hi.
  - rewrite str_neg.
    pose proof (int_digits_uint (Pos.to_uint p) 0 false
                  (or_introl (DecimalPos.Unsigned.to_uint_nonnil p))) as Hi.
    rewrite uint_val_of_uint, DecimalPos.Unsigned.of_to in Hi. cbn [Z.of_N] in Hi.
    now rewrite Hi.
Qed.

Lemma split_no_comma s : no_comma s = true -> Py.split "," s = [s].
Proof.
  unfold no_comma. induction s as [|c s IH]; [reflexivity|].
  cbn [all_chars Py.split]. intros H. apply andb_true_iff in H as [Hc Hs].
  apply negb_true_iff in Hc. now rewrite Hc, (IH Hs).
Qed.

Lemma split_before_comma s r :
  no_comma s = true ->
  Py.split "," (s ++ String "," r) = s :: Py.split "," r.
Proof.
  unfold no_comma. induction s as [|c s IH]; [reflexivity|].
  cbn [all_chars append Py.split]. intros H.
  apply andb_true_iff in H as [Hc Hs].
  apply negb_true_iff in Hc. now rewrite Hc, (IH Hs).
Qed.

(** Splitting at commas undoes joining with commas, for parts without
    commas. *)
Lemma split_join parts :
  parts <> [] -> Forall (fun s => no_comma s = true) parts ->
  Py.split "," (Py.join "," parts) = parts.
Proof.
  induction parts as [|p parts IH]; [congruence|]. intros _ Hall.
  inversion Hall as [|? ? Hp Hrest]; subst.
  destruct parts as [|q parts]; [now apply split_no_comma|].
  change (Py.join "," (p :: q :: parts))
    with (p ++ String "," (Py.join "," (q :: parts))).
  rewrite (split_before_comma _ _ Hp), IH; [reflexivity|discriminate|assumption].
Qed.

Lemma str_no_comma n : no_comma (Py.str n) = true.
Proof.
  apply (all_chars_weaken int_char); [|apply str_chars].
  intros c Hc. now rewrite (int_char_not_comma c Hc).
Qed.

Lemma mapM_int_str vals : mapM Py.int (map Py.str vals) = Return vals.
Proof.
  induction vals as [|v vals IH]; [reflexivity|].
  cbn [map mapM]. rewrite int_str. cbn [bind]. now rewrite IH.
Qed.

Lemma parse_arg_show d :
  six_faced d ->
  DiceParser.parse_arg (ProbabilityCalculator.show_values d) = Return d.
Proof.
  unfold six_faced. intros H6. unfold DiceParser.parse_arg,
    ProbabilityCalculator.show_values.
  rewrite split_join.
  - rewrite mapM_int_str. cbn [bind]. unfold Dice.init.
    rewrite H6. destruct d; reflexivity.
  - destruct (Dice.values d); [discriminate H6|discriminate].
  - apply Forall_forall. intros s Hs. apply in_map_iff in Hs as (n & <- & _).
    apply str_no_comma.
Qed.

Lemma parse_args_show ds :
  Forall six_faced ds ->
  DiceParser.parse_args (map ProbabilityCalculator.show_values ds) = Return ds.
Proof.
  induction 1 as [|d ds Hd _ IH]; [reflexivity|].
  cbn [map DiceParser.parse_args]. now rewrite (parse_arg_show d Hd), IH.
Qed.

(** X1. A set of at least three six-faced dice, each written the way the
    program shows a die (its faces joined by commas), is parsed back by
    [DiceParser.parse] into the same dice in the same order. *)
Theorem parse_show_round_trip (ds : list Dice.t) :
  (3 <= List.length ds)%nat -> Forall six_faced ds ->
  DiceParser.parse (map ProbabilityCalculator.show_values ds) = Return ds.
Proof.
  intros Hn Hall. unfold DiceParser.parse. rewrite length_map.
  destruct (Nat.ltb_spec (List.length ds) 3); [lia|].
  now apply parse_args_show.
Qed.

Lemma parse_show_round_trip_witness :
  DiceParser.parse (map ProbabilityCalculator.show_values sample_dice)
  = Return sample_dice.
Proof.
  apply (parse_show_round_trip sample_dice).
  - cbn. lia.
  - repeat constructor.
Defined.

(* ----------------------------------------------------------------- *)
(** ** What [DiceParser.parse] accepts and what it reports *)







(* ----------------------------------------------------------------- *)
(** ** [compare_dice]: empty dice, ordering, colours *)

(** X4. [compare_dice] raises [ZeroDivisionError] exactly when one of the two
    dice has no face, and returns a float exactly when both have faces. *)
Theorem compare_dice_raises_iff_no_faces (dice_a dice_b : Dice.t) :
  (Dice.values dice_a = [] \/ Dice.values dice_b = [] <->
   ProbabilityCalculator.compare_dice dice_a dice_b = Raise ZeroDivisionError)
  /\
  (Dice.values dice_a <> [] /\ Dice.values dice_b <> [] <->
   exists p, ProbabilityCalculator.compare_dice dice_a dice_b = Return p).
Proof.
  assert (Hz : Dice.values dice_a = [] \/ Dice.values dice_b = [] ->
               ProbabilityCalculator.compare_dice dice_a dice_b
               = Raise ZeroDivisionError).
  { intros H. unfold ProbabilityCalculator.compare_dice.
    rewrite count_outcomes_counts. unfold PyFloat.truediv.
    replace (List.length (Dice.values dice_a) * List.length (Dice.values dice_b))%nat
      with 0%nat; [reflexivity|].
    destruct H as [-> | ->]; cbn [List.length]; lia. }
  assert (Hr : Dice.values dice_a <> [] -> Dice.values dice_b <> [] ->
               exists p, ProbabilityCalculator.compare_dice dice_a dice_b
                         = Return p).
  { intros Ha Hb. eexists. apply compare_dice_rounded_ratio.
    destruct (Dice.values dice_a), (Dice.values dice_b); cbn; congruence. }
  split; split.
  - exact Hz.
  - intros He.
    destruct (Dice.values dice_a) as [|x a] eqn:Ea; [now left|].
    destruct (Dice.values dice_b) as [|y b] eqn:Eb; [now right|].
    destruct Hr as [p Hp]; [discriminate | discriminate | congruence].
  - intros [Ha Hb]. now apply Hr.
  - intros [p Hp]. split; intros E.
    + rewrite Hz in Hp by now left. discriminate.
    + rewrite Hz in Hp by now right. discriminate.
Qed.

Lemma ratios_ordered w1 w2 :
  (w1 <= 36)%nat -> (w2 <= 36)%nat -> ratios_ordered_as_counts w1 w2 = true.
Proof.
  intros H1 H2.
  assert (H : forallb (fun w1 =>
                forallb (ratios_ordered_as_counts w1) (seq 0 37))
              (seq 0 37) = true) by (vm_compute; reflexivity).
  pose proof (proj1 (forallb_forall _ _) H w1 ltac:(apply in_seq; lia)) as Hw.
  exact (proj1 (forallb_forall _ _) Hw w2 ltac:(apply in_seq; lia)).
Qed.

Lemma wins_le_36 a b :
  List.length a = 6%nat -> List.length b = 6%nat -> (wins a b <= 36)%nat.
Proof.
  intros Ha Hb. pose proof (wins_ties_total a b). rewrite Ha, Hb in *. lia.
Qed.

(** X5. Rounding to four decimals keeps the order of the win counts: for
    six-faced dice, one result of [compare_dice] is greater than another
    exactly when its pair of dice has more winning face pairs, and the two
    results are equal floats exactly when the counts are equal. *)
Theorem compare_dice_orders_as_win_counts (a b c d : Dice.t) :
  six_faced a -> six_faced b -> six_faced c -> six_faced d ->
  exists p q,
    ProbabilityCalculator.compare_dice a b = Return p /\
    ProbabilityCalculator.compare_dice c d = Return q /\
    (PyFloat.gt p q = true <->
     (wins (Dice.values c) (Dice.values d)
      < wins (Dice.values a) (Dice.values b))%nat) /\
    (SFeqb p q = true <->
     wins (Dice.values a) (Dice.values b)
     = wins (Dice.values c) (Dice.values d)).
Proof.
  intros Ha Hb Hc Hd.
  destruct (compare_dice_six a b Ha Hb) as [Hp _].
  destruct (compare_dice_six c d Hc Hd) as [Hq _].
  do 2 eexists. split; [exact Hp|]. split; [exact Hq|].
  pose proof (ratios_ordered _ _ (wins_le_36 _ _ Ha Hb) (wins_le_36 _ _ Hc Hd))
    as H.
  apply andb_true_iff in H as [Hgt Heq].
  apply Bool.eqb_prop in Hgt, Heq. rewrite Hgt, Heq.
  split; [apply Nat.ltb_lt | apply Nat.eqb_eq].
Qed.

Lemma compare_dice_orders_as_win_counts_witness :
  exists p q,
    ProbabilityCalculator.compare_dice
      (Dice.mk [2; 2; 4; 4; 9; 9]) (Dice.mk [1; 1; 6; 6; 8; 8]) = Return p /\
    ProbabilityCalculator.compare_dice
      (Dice.mk [1; 1; 6; 6; 8; 8]) (Dice.mk [2; 2; 4; 4; 9; 9]) = Return q /\
    PyFloat.gt p q = true.
Proof.
  destruct (compare_dice_orders_as_win_counts
              (Dice.mk [2; 2; 4; 4; 9; 9]) (Dice.mk [1; 1; 6; 6; 8; 8])
              (Dice.mk [1; 1; 6; 6; 8; 8]) (Dice.mk [2; 2; 4; 4; 9; 9])
              eq_refl eq_refl eq_refl eq_refl)
    as (p & q & Hp & Hq & Hgt & _).
  exists p, q. split; [exact Hp|]. split; [exact Hq|].
  apply Hgt. vm_compute. lia.
Defined.

Lemma colorize_rounded_ratio w :
  (w <= 36)%nat ->
  ProbabilityCalculator.colorize_probability (rounded_ratio w 36)
  = ColouredProb (colour_of_wins w) (rounded_ratio w 36).
Proof.
  intros Hw.
  assert (H : map (fun w => ProbabilityCalculator.colorize_probability
                              (rounded_ratio w 36)) (seq 0 37)
            = map (fun w => ColouredProb (colour_of_wins w) (rounded_ratio w 36))
                  (seq 0 37)) by (vm_compute; reflexivity).
  apply (proj1 (map_ext_in_iff) H w). apply in_seq. lia.
Qed.

(** X6. The colour of a help-table entry, read on the win count: for
    six-faced dice [colorize_probability] shows the result of [compare_dice]
    in green when more than 18 of the 36 face pairs win, in yellow for 12 to
    18 winning pairs (so exactly half is yellow, not green), and in red
    below 12. *)
Theorem colour_follows_win_count (a b : Dice.t) :
  six_faced a -> six_faced b ->
  exists p,
    ProbabilityCalculator.compare_dice a b = Return p /\
    ProbabilityCalculator.colorize_probability p
    = ColouredProb
        (let w := wins (Dice.values a) (Dice.values b) in
         if (18 <? w)%nat then Green
         else if (12 <=? w)%nat then Yellow else Red) p.
Proof.
  intros Ha Hb. destruct (compare_dice_six a b Ha Hb) as [Hp _].
  eexists. split; [exact Hp|].
  apply colorize_rounded_ratio, wins_le_36; assumption.
Qed.

Lemma colour_follows_win_count_witness :
  exists p,
    ProbabilityCalculator.compare_dice
      (Dice.mk [2; 2; 4; 4; 9; 9]) (Dice.mk [1; 1; 6; 6; 8; 8]) = Return p /\
    ProbabilityCalculator.colorize_probability p = ColouredProb Green p.
Proof.
  exact (colour_follows_win_count
           (Dice.mk [2; 2; 4; 4; 9; 9]) (Dice.mk [1; 1; 6; 6; 8; 8])
           eq_refl eq_refl).
Defined.

(* ----------------------------------------------------------------- *)
(** ** The help table *)

Lemma generate_help_table_rows dice :
  Forall six_faced dice ->
  ProbabilityCalculator.generate_help_table dice
  = Return
      (mkTable
         ("User dice v" :: map ProbabilityCalculator.show_values dice)
         (map (fun i =>
                 Plain (ProbabilityCalculator.show_values
                          (nth i dice (Dice.mk [])))
                 :: map (help_cell dice i) (seq 0 (List.length dice)))
              (seq 0 (List.length dice)))).
Proof.
  intros Hall. unfold ProbabilityCalculator.generate_help_table.
  rewrite (calculate_probabilities_matrix dice Hall). cbn [bind].
  rewrite (mapM_Return _
    (fun i => Plain (ProbabilityCalculator.show_values (nth i dice (Dice.mk [])))
              :: map (help_cell dice i) (seq 0 (List.length dice))));
    [reflexivity|].
  intros i Hi. apply in_seq in Hi.
  rewrite (getitem_nat dice i (nth i dice (Dice.mk [])))
    by (apply nth_error_nth'; lia).
  cbn [bind].
  rewrite (mapM_Return _ (help_cell dice i)); [reflexivity|].
  intros j Hj. apply in_seq in Hj. unfold help_cell.
  destruct (Nat.eqb i j) eqn:E; [reflexivity|].
  erewrite getitem_nat by (apply nth_error_tabulate; lia). cbn [bind].
  erewrite getitem_nat by (apply nth_error_tabulate; lia). cbn [bind].
  cbv beta. now rewrite E.
Qed.

(** X7. For a game whose dice have six faces, [help_option] never fails: it
    writes the four lines of rules and a table with one header per die after
    the corner header and one row per die; row [i] starts with the faces of
    die [i], holds the cyan text [- (0.3333)] in column [i], and in every
    other column [j] the coloured result of [compare_dice] for dice [i] and
    [j]. *)
Theorem help_option_shows_the_matrix (self : Game.t) :
  Forall six_faced (Game.dice self) ->
  exists t,
    Game.help_option self
    = (Return tt,
       [ Line (Py.nl ++ "Game Rules:");
         Line "Each dice has six faces with values as defined at the start.";
         Line "Your goal is to choose a dice with a higher probability of winning.";
         Line (Py.nl ++ "Probability of the win for the user:");
         Grid t ]) /\
    headers t
    = "User dice v" :: map ProbabilityCalculator.show_values (Game.dice self) /\
    List.length (rows t) = List.length (Game.dice self) /\
    (forall i a, nth_error (Game.dice self) i = Some a ->
       exists cells,
         nth_error (rows t) i
         = Some (Plain (ProbabilityCalculator.show_values a) :: cells) /\
         List.length cells = List.length (Game.dice self) /\
         nth_error cells i = Some (Coloured Cyan "- (0.3333)") /\
         (forall j b, j <> i -> nth_error (Game.dice self) j = Some b ->
            exists p,
              ProbabilityCalculator.compare_dice a b = Return p /\
              nth_error cells j
              = Some (ProbabilityCalculator.colorize_probability p))).
Proof.
  intros Hall. eexists. split; [|split; [|split]].
  - unfold Game.help_option.
    rewrite (generate_help_table_rows _ Hall). reflexivity.
  - reflexivity.
  - cbn [rows]. now rewrite length_map, length_seq.
  - intros i a Ha. cbn [rows].
    pose proof (proj1 (nth_error_Some (Game.dice self) i) ltac:(congruence))
      as Hi.
    eexists. split; [|split; [|split]].
    + rewrite nth_error_tabulate by assumption.
      now rewrite (nth_error_nth _ _ _ Ha).
    + now rewrite length_map, length_seq.
    + rewrite nth_error_tabulate by assumption.
      unfold help_cell. now rewrite Nat.eqb_refl.
    + intros j b Hji Hb.
      pose proof (proj1 (nth_error_Some (Game.dice self) j) ltac:(congruence))
        as Hj.
      pose proof (proj1 (Forall_forall _ _) Hall) as Hsix.
      destruct (compare_dice_six a b) as [Hc _];
        [eapply Hsix, nth_error_In; eassumption ..|].
      eexists. split; [exact Hc|].
      rewrite nth_error_tabulate by assumption. unfold help_cell.
      destruct (Nat.eqb_spec i j); [congruence|].
      now rewrite (nth_error_nth _ _ _ Ha), (nth_error_nth _ _ _ Hb).
Qed.

Lemma help_option_shows_the_matrix_witness :
  exists t,
    fst (Game.help_option sample_game) = Return tt /\
    last (snd (Game.help_option sample_game)) (Line "") = Grid t /\
    List.length (rows t) = 3%nat.
Proof.
  destruct (help_option_shows_the_matrix sample_game) as (t & Hh & _ & Hr & _).
  - repeat constructor.
  - exists t. rewrite Hh. repeat split. exact Hr.
Defined.

(* ----------------------------------------------------------------- *)
(** ** The pool of remaining dice *)

Lemma range_sorted start n :
  StronglySorted Z.lt (map Z.of_nat (seq start n)).
Proof.
  revert start. induction n as [|n IH]; intros start; cbn [seq map];
    constructor; [apply IH|].
  apply Forall_forall. intros z Hz.
  apply in_map_iff in Hz as (k & <- & Hk). apply in_seq in Hk. lia.
Qed.

Lemma init_pool_ok dice : pool_ok (Game.init dice).
Proof.
  split; cbn [Game.init Game.remaining_dice Game.dice]; [apply range_sorted|].
  apply Forall_forall. intros z Hz.
  apply in_map_iff in Hz as (k & <- & Hk). apply in_seq in Hk. lia.
Qed.

Lemma remove_subset x l y : In y (Py.remove x l) -> In y l.
Proof.
  induction l as [|z l IH]; cbn [Py.remove]; [auto|].
  destruct (x =? z); cbn [In]; intuition.
Qed.

Lemma remove_sorted x l :
  StronglySorted Z.lt l -> StronglySorted Z.lt (Py.remove x l).
Proof.
  induction 1 as [|z l Hs IH Hall]; cbn [Py.remove]; [constructor|].
  destruct (x =? z); [assumption|]. constructor; [assumption|].
  apply Forall_forall. intros y Hy.
  exact (proj1 (Forall_forall _ _) Hall y (remove_subset _ _ _ Hy)).
Qed.

Lemma remove_sorted_not_in x l :
  StronglySorted Z.lt l -> ~ In x (Py.remove x l).
Proof.
  induction 1 as [|z l Hs IH Hall]; cbn [Py.remove]; [auto|].
  destruct (Z.eqb_spec x z) as [->|Hne].
  - intros Hin. pose proof (proj1 (Forall_forall _ _) Hall z Hin). lia.
  - cbn [In]. intuition.
Qed.

Lemma remove_length x l :
  In x l -> S (List.length (Py.remove x l)) = List.length l.
Proof.
  induction l as [|z l IH]; cbn [Py.remove In List.length]; [intros []|].
  destruct (Z.eqb_spec x z) as [->|Hne]; [reflexivity|].
  intros [->|H]; [contradiction|]. cbn [List.length]. now rewrite IH.
Qed.

Lemma remove_pool_ok self x :
  pool_ok self ->
  pool_ok (Game.mk (Game.dice self) (Py.remove x (Game.remaining_dice self))).
Proof.
  intros [Hs Hr]. split; cbn [Game.remaining_dice Game.dice].
  - now apply remove_sorted.
  - apply Forall_forall. intros y Hy.
    exact (proj1 (Forall_forall _ _) Hr y (remove_subset _ _ _ Hy)).
Qed.

Lemma contains_In x l : Py.contains x l = true <-> In x l.
Proof.
  unfold Py.contains. rewrite existsb_exists. split.
  - intros (y & Hy & E). apply Z.eqb_eq in E. now subst.
  - intros H. exists x. split; [assumption|apply Z.eqb_refl].
Qed.

(** X8. In a game whose pool is in order, [computer_select_dice] on an empty
    pool raises [IndexError]; otherwise it takes the lowest remaining index,
    which is a valid index of [dice], returns the die at that index, removes
    the index from the pool and leaves the pool in order; it announces the
    die only when the computer does not move first. *)
Theorem computer_takes_lowest_index (self : Game.t) (is_first : bool) :
  pool_ok self ->
  (Game.remaining_dice self = [] /\
   Game.computer_select_dice self is_first = (Raise IndexError, []))
  \/
  (exists i d self',
     Game.computer_select_dice self is_first
     = (Return (self', (d, i)),
        if is_first then []
        else [Line ("I choose the [" ++ ProbabilityCalculator.show_values d
                    ++ "] dice.")]) /\
     In i (Game.remaining_dice self) /\
     (forall k, In k (Game.remaining_dice self) -> i <= k) /\
     nth_error (Game.dice self) (Z.to_nat i) = Some d /\
     Game.dice self' = Game.dice self /\
     Game.remaining_dice self' = Py.remove i (Game.remaining_dice self) /\
     ~ In i (Game.remaining_dice self') /\
     pool_ok self').
Proof.
  intros Hok. pose proof Hok as [Hs Hr].
  unfold Game.computer_select_dice.
  destruct (Game.remaining_dice self) as [|i rest] eqn:E; [left; auto|].
  right. inversion Hs as [|? ? Hs' Hlt]; subst.
  inversion Hr as [|? ? Hi Hr']; subst.
  destruct (nth_error (Game.dice self) (Z.to_nat i)) as [d|] eqn:En;
    [|apply nth_error_None in En; lia].
  replace (Py.getitem (Game.dice self) i) with (Return d)
    by (replace i with (Z.of_nat (Z.to_nat i)) at 1 by lia;
        symmetry; now apply getitem_nat).
  exists i, d, (Game.mk (Game.dice self) rest).
  assert (Hrem : Py.remove i (i :: rest) = rest)
    by (cbn [Py.remove]; now rewrite Z.eqb_refl).
  split; [destruct is_first; reflexivity|].
  split; [now left|]. split.
  { intros k [<-|Hk]; [lia|].
    pose proof (proj1 (Forall_forall _ _) Hlt k Hk). lia. }
  split; [exact En|]. split; [reflexivity|].
  cbn [Game.remaining_dice]. split; [now rewrite Hrem|]. split.
  - intros Hin. pose proof (proj1 (Forall_forall _ _) Hlt i Hin). lia.
  - split; assumption.
Qed.

Lemma computer_takes_lowest_index_witness :
  Game.computer_select_dice sample_game false
  = (Return (Game.mk sample_dice [1; 2], (Dice.mk [2; 2; 4; 4; 9; 9], 0)),
     [Line "I choose the [2,2,4,4,9,9] dice."]).
Proof.
  destruct (computer_takes_lowest_index sample_game false
              (init_pool_ok sample_dice)) as [[E _]|_].
  - discriminate E.
  - reflexivity.
Defined.

(* ----------------------------------------------------------------- *)
(** ** [Game.user_select_dice] when it returns *)

Lemma user_select_dice_run self stdin src self' d idx :
  outcome (Game.user_select_dice self stdin src) = Return (self', (d, idx)) ->
  In idx (Game.remaining_dice self) /\
  Py.getitem (Game.dice self) idx = Return d /\
  self' = Game.mk (Game.dice self) (Py.remove idx (Game.remaining_dice self)) /\
  source (Game.user_select_dice self stdin src) = src /\
  exists n line,
    nth_error stdin n = Some line /\
    Py.int (Py.strip line) = Return idx /\
    unread (Game.user_select_dice self stdin src) = skipn (S n) stdin.
Proof.
  induction stdin as [|line stdin IH]; cbn [Game.user_select_dice].
  - destruct (Game.list_remaining self (Game.remaining_dice self))
      as [[r|e|c] listed]; discriminate.
  - destruct (Game.list_remaining self (Game.remaining_dice self))
      as [[r|e|c] listed]; try discriminate.
    assert (Hnext :
      outcome (Game.user_select_dice self stdin src) = Return (self', (d, idx)) ->
      In idx (Game.remaining_dice self) /\
      Py.getitem (Game.dice self) idx = Return d /\
      self' = Game.mk (Game.dice self)
                (Py.remove idx (Game.remaining_dice self)) /\
      source (Game.user_select_dice self stdin src) = src /\
      exists n l0,
        nth_error (line :: stdin) n = Some l0 /\
        Py.int (Py.strip l0) = Return idx /\
        unread (Game.user_select_dice self stdin src)
        = skipn (S n) (line :: stdin)).
    { intros H. destruct (IH H) as (H1 & H2 & H3 & H4 & n & l0 & H5 & H6 & H7).
      repeat split; try assumption. exists (S n), l0. auto. }
    destruct (String.eqb (Py.lower (Py.strip line)) "x"); [discriminate|].
    destruct (String.eqb (Py.lower (Py.strip line)) "?").
    { destruct (Game.help_option self) as [[u|e|c] shown]; try discriminate.
      exact Hnext. }
    destruct (Py.int (Py.strip line)) as [i|e|c] eqn:Hi; cbn [bind];
      try discriminate.
    destruct (Py.getitem (Game.dice self) i) as [chosen|e|c] eqn:Hg;
      try discriminate.
    destruct (Py.contains i (Game.remaining_dice self)) eqn:Hc;
      [|exact Hnext].
    cbn [outcome source unread]. intros [= <- <- <-].
    apply contains_In in Hc. repeat split; try assumption.
    exists 0%nat, line. auto.
Qed.

(** X9. Whenever [user_select_dice] returns, the index it returns was typed
    on one of the lines read, was in the pool, and is a valid index of [dice];
    the die returned is the one at that index, the new game has the same dice
    and the pool without that index, the random source is untouched, and the
    lines after the accepted one are left unread.  A pool in order stays in
    order and one shorter. *)
Theorem user_select_dice_takes_a_remaining_die
    (self : Game.t) (stdin : list string) (src : Secrets.Source)
    (self' : Game.t) (d : Dice.t) (idx : Z) :
  outcome (Game.user_select_dice self stdin src) = Return (self', (d, idx)) ->
  In idx (Game.remaining_dice self) /\
  Py.getitem (Game.dice self) idx = Return d /\
  Game.dice self' = Game.dice self /\
  Game.remaining_dice self' = Py.remove idx (Game.remaining_dice self) /\
  S (List.length (Game.remaining_dice self'))
    = List.length (Game.remaining_dice self) /\
  source (Game.user_select_dice self stdin src) = src /\
  (exists n line,
     nth_error stdin n = Some line /\
     Py.int (Py.strip line) = Return idx /\
     unread (Game.user_select_dice self stdin src) = skipn (S n) stdin) /\
  (pool_ok self ->
   pool_ok self' /\ ~ In idx (Game.remaining_dice self') /\
   nth_error (Game.dice self) (Z.to_nat idx) = Some d).
Proof.
  intros H.
  destruct (user_select_dice_run _ _ _ _ _ _ H) as (Hin & Hg & -> & Hs & Hn).
  cbn [Game.dice Game.remaining_dice].
  split; [assumption|]. split; [assumption|]. split; [reflexivity|].
  split; [reflexivity|]. split; [now apply remove_length|].
  split; [assumption|]. split; [assumption|].
  intros Hok. split; [now apply remove_pool_ok|].
  split; [apply remove_sorted_not_in, Hok|].
  destruct Hok as [_ Hr].
  pose proof (proj1 (Forall_forall _ _) Hr idx Hin) as Hi. cbv beta in Hi.
  rewrite (getitem_in_range _ _ (Dice.mk [])) in Hg by assumption.
  injection Hg as Hg. subst d. apply nth_error_nth'. cbv beta in Hi. lia.
Qed.

Lemma user_select_dice_takes_a_remaining_die_witness :
  outcome (Game.user_select_dice sample_game ["?"%string; "-1"; " 2 "; "0"]
             sample_source)
    = Return (Game.mk sample_dice [0; 1], (Dice.mk [7; 5; 3; 7; 5; 3], 2)) /\
  unread (Game.user_select_dice sample_game ["?"%string; "-1"; " 2 "; "0"]
            sample_source) = ["0"%string].
Proof.
  assert (H : outcome (Game.user_select_dice sample_game
                         ["?"%string; "-1"; " 2 "; "0"] sample_source)
              = Return (Game.mk sample_dice [0; 1],
                        (Dice.mk [7; 5; 3; 7; 5; 3], 2)))
    by (vm_compute; reflexivity).
  pose proof (user_select_dice_takes_a_remaining_die _ _ _ _ _ _ H)
    as (_ & _ & _ & _ & _ & _ & (n & line & Hn & Hl & Hu) & _).
  split; [vm_compute; reflexivity|].
  vm_compute. reflexivity.
Defined.

(* ----------------------------------------------------------------- *)
(** ** The two selections together *)

Lemma computer_select_dice_run self is_first self' d i :
  fst (Game.computer_select_dice self is_first) = Return (self', (d, i)) ->
  Game.remaining_dice self = i :: Game.remaining_dice self' /\
  Game.dice self' = Game.dice self /\
  Py.getitem (Game.dice self) i = Return d.
Proof.
  unfold Game.computer_select_dice.
  destruct (Game.remaining_dice self) as [|k rest]; [discriminate|].
  destruct (Py.getitem (Game.dice self) k) as [c|e|c] eqn:Hg; try discriminate.
  cbn [fst]. intros [= <- <- <-]. auto.
Qed.

Lemma sorted_head_not_in i l : StronglySorted Z.lt (i :: l) -> ~ In i l.
Proof.
  intros H Hin. inversion H as [|? ? _ Hall]; subst.
  pose proof (proj1 (Forall_forall _ _) Hall i Hin). lia.
Qed.

Lemma pool_ok_tail self i rest :
  pool_ok self -> Game.remaining_dice self = i :: rest ->
  pool_ok (Game.mk (Game.dice self) rest).
Proof.
  intros [Hs Hr] E. rewrite E in Hs, Hr.
  inversion Hs; inversion Hr; subst. split; assumption.
Qed.


(** X10. From a pool in order, the computer and the human never end up with
    the same die, whoever selects first: the two indices differ, both have
    left the pool, and the pool is two shorter and still in order. *)
Theorem players_hold_different_dice
    (self : Game.t) (is_first : bool) (stdin : list string)
    (src : Secrets.Source)
    (self1 self2 : Game.t) (dc du : Dice.t) (ic iu : Z) :
  pool_ok self ->
  (fst (Game.computer_select_dice self is_first) = Return (self1, (dc, ic)) /\
   outcome (Game.user_select_dice self1 stdin src) = Return (self2, (du, iu)))
  \/
  (outcome (Game.user_select_dice self stdin src) = Return (self1, (du, iu)) /\
   fst (Game.computer_select_dice self1 is_first) = Return (self2, (dc, ic))) ->
  ic <> iu /\
  In ic (Game.remaining_dice self) /\ In iu (Game.remaining_dice self) /\
  ~ In ic (Game.remaining_dice self2) /\ ~ In iu (Game.remaining_dice self2) /\
  S (S (List.length (Game.remaining_dice self2)))
    = List.length (Game.remaining_dice self) /\
  Game.dice self2 = Game.dice self /\
  pool_ok self2.
Proof.
  intros Hok [[Hc Hu]|[Hu Hc]].
  - destruct (computer_select_dice_run _ _ _ _ _ Hc) as (Hrem & Hd & _).
    assert (Hok1 : pool_ok self1).
    { destruct self1 as [d1 r1]. cbn in Hrem, Hd. subst d1.
      exact (pool_ok_tail self ic r1 Hok Hrem). }
    destruct (user_select_dice_run _ _ _ _ _ _ Hu) as (Hin & _ & -> & _).
    cbn [Game.dice Game.remaining_dice].
    pose proof (sorted_head_not_in ic (Game.remaining_dice self1)) as Hnot.
    rewrite <- Hrem in Hnot. specialize (Hnot (proj1 Hok)).
    split; [intros ->; contradiction|].
    rewrite Hrem. split; [now left|]. split; [now right|].
    split; [intros H; apply Hnot; eapply remove_subset; eassumption|].
    split; [apply remove_sorted_not_in, Hok1|].
    split; [cbn [List.length]; now rewrite (remove_length _ _ Hin)|].
    split; [assumption|]. now apply remove_pool_ok.
  - destruct (user_select_dice_run _ _ _ _ _ _ Hu) as (Hin & _ & -> & _).
    destruct (computer_select_dice_run _ _ _ _ _ Hc) as (Hrem & Hd & _).
    cbn [Game.dice Game.remaining_dice] in Hrem, Hd.
    pose proof (remove_pool_ok self iu Hok) as Hok1.
    pose proof (remove_sorted_not_in iu _ (proj1 Hok)) as Hnotu.
    pose proof (proj1 Hok1) as Hs1. cbn [Game.remaining_dice] in Hs1.
    rewrite Hrem in Hs1, Hnotu.
    assert (Hic : In ic (Py.remove iu (Game.remaining_dice self)))
      by (rewrite Hrem; now left).
    split; [intros ->; apply Hnotu; now left|].
    split; [eapply remove_subset; eassumption|]. split; [assumption|].
    split; [now apply sorted_head_not_in|].
    split; [intros H; apply Hnotu; now right|].
    split.
    { rewrite <- (remove_length _ _ Hin), Hrem. reflexivity. }
    split; [assumption|].
    destruct self2 as [d2 r2]. cbn in Hrem, Hd |- *. subst d2.
    exact (pool_ok_tail _ ic r2 Hok1 Hrem).
Qed.

Lemma players_hold_different_dice_witness :
  exists self1 self2 dc du ic iu,
    fst (Game.computer_select_dice sample_game true) = Return (self1, (dc, ic)) /\
    outcome (Game.user_select_dice self1 ["0"%string; "1"] sample_source)
      = Return (self2, (du, iu)) /\
    ic <> iu /\ Game.remaining_dice self2 = [2].
Proof.
  exists (Game.mk sample_dice [1; 2]), (Game.mk sample_dice [2]),
         (Dice.mk [2; 2; 4; 4; 9; 9]), (Dice.mk [6; 8; 1; 1; 8; 6]), 0, 1.
  assert (Hc : fst (Game.computer_select_dice sample_game true)
               = Return (Game.mk sample_dice [1; 2],
                         (Dice.mk [2; 2; 4; 4; 9; 9], 0))) by reflexivity.
  assert (Hu : outcome (Game.user_select_dice (Game.mk sample_dice [1; 2])
                          ["0"%string; "1"] sample_source)
               = Return (Game.mk sample_dice [2],
                         (Dice.mk [6; 8; 1; 1; 8; 6], 1)))
    by (vm_compute; reflexivity).
  split; [exact Hc|]. split; [exact Hu|].
  split; [|reflexivity].
  exact (proj1 (players_hold_different_dice sample_game true
                  ["0"%string; "1"] sample_source _ _ _ _ _ _
                  (init_pool_ok sample_dice) (or_introl (conj Hc Hu)))).
Defined.

(* ----------------------------------------------------------------- *)
(** ** [Game.play_throw] and [Game.determine_first_move] over whole runs *)

Lemma play_throw_helps self d is_user line stdin src value tag key src' :
  FairRandomGenerator.generate_fair_number 0 5 src
    = (Return (value, tag, key), src') ->
  String.eqb (Py.lower (Py.strip line)) "x" = false ->
  String.eqb (Py.lower (Py.strip line)) "?" = true ->
  Game.play_throw self d is_user (line :: stdin) src =
  match Game.help_option self with
  | (Return _, shown) =>
      after (throw_challenge is_user tag ++ shown)
            (Game.play_throw self d is_user stdin src')
  | (Raise e, shown) =>
      mkStep (Raise e) stdin src' (throw_challenge is_user tag ++ shown)%list
  | (Exit c, shown) =>
      mkStep (Exit c) stdin src' (throw_challenge is_user tag ++ shown)%list
  end.
Proof.
  intros Hg Hx Hq. unfold_step Hg. rewrite Hx, Hq.
  destruct (Game.help_option self) as [[r|e|c] shown]; reflexivity.
Qed.

Lemma play_throw_leaves self d is_user line stdin src value tag key src' :
  FairRandomGenerator.generate_fair_number 0 5 src
    = (Return (value, tag, key), src') ->
  String.eqb (Py.lower (Py.strip line)) "x" = true ->
  Game.play_throw self d is_user (line :: stdin) src =
  mkStep (Exit 0) stdin src'
    (throw_challenge is_user tag ++ [Line "Exiting the game."])%list.
Proof. intros Hg Hx. unfold_step Hg. now rewrite Hx. Qed.

Lemma play_throw_eof self d is_user src value tag key src' :
  FairRandomGenerator.generate_fair_number 0 5 src
    = (Return (value, tag, key), src') ->
  Game.play_throw self d is_user [] src =
  mkStep (Raise EOFError) [] src' (throw_challenge is_user tag).
Proof. intros Hg. cbn [Game.play_throw]. now rewrite Hg. Qed.

Lemma roll_face d value u :
  six_faced d -> 0 <= value -> 0 <= u ->
  Dice.roll d ((value + u) mod 6)
  = Return (nth (Z.to_nat ((value + u) mod 6)) (Dice.values d) 0) /\
  In (nth (Z.to_nat ((value + u) mod 6)) (Dice.values d) 0) (Dice.values d).
Proof.
  unfold six_faced. intros H6 Hv Hu.
  pose proof (Z.mod_pos_bound (value + u) 6 ltac:(lia)).
  split; [apply getitem_in_range | apply nth_In]; lia.
Qed.

(** X11. Whenever [play_throw] returns on a six-faced die, what it returns is
    a face of that die: the face at index [(c + u) mod 6] for the digit [u]
    accepted on line [n] of the input and the value [c] committed just before
    that line was read.  The step has then read [n + 1] lines and drawn
    [n + 1] commitments, one per line. *)
Theorem play_throw_returns_a_face
    (self : Game.t) (d : Dice.t) (is_user : bool) (stdin : list string)
    (src : Secrets.Source) (face : Z) :
  six_faced d ->
  outcome (Game.play_throw self d is_user stdin src) = Return face ->
  In face (Dice.values d) /\
  exists n line u value tag key,
    nth_error stdin n = Some line /\
    accepted_digit line = Some u /\
    FairRandomGenerator.generate_fair_number 0 5
      (Nat.iter n (next_source 0 5) src)
      = (Return (value, tag, key), Nat.iter (S n) (next_source 0 5) src) /\
    face = nth (Z.to_nat ((value + u) mod 6)) (Dice.values d) 0 /\
    unread (Game.play_throw self d is_user stdin src) = skipn (S n) stdin /\
    source (Game.play_throw self d is_user stdin src)
      = Nat.iter (S n) (next_source 0 5) src.
Proof.
  intros H6. revert src. induction stdin as [|line stdin IH]; intros src H.
  - destruct (generate_fair_number_total 0 5 src) as (v & t & k & Hg); [lia|].
    rewrite (play_throw_eof _ _ _ _ _ _ _ _ Hg) in H. discriminate.
  - destruct (generate_fair_number_total 0 5 src) as (v & t & k & Hg); [lia|].
    assert (Hnext :
      outcome (Game.play_throw self d is_user stdin (next_source 0 5 src))
        = Return face ->
      forall s : Step Z,
      outcome s
        = outcome (Game.play_throw self d is_user stdin (next_source 0 5 src)) ->
      unread s
        = unread (Game.play_throw self d is_user stdin (next_source 0 5 src)) ->
      source s
        = source (Game.play_throw self d is_user stdin (next_source 0 5 src)) ->
      In face (Dice.values d) /\
      exists n l0 u value tag key,
        nth_error (line :: stdin) n = Some l0 /\
        accepted_digit l0 = Some u /\
        FairRandomGenerator.generate_fair_number 0 5
          (Nat.iter n (next_source 0 5) src)
          = (Return (value, tag, key), Nat.iter (S n) (next_source 0 5) src) /\
        face = nth (Z.to_nat ((value + u) mod 6)) (Dice.values d) 0 /\
        unread s = skipn (S n) (line :: stdin) /\
        source s = Nat.iter (S n) (next_source 0 5) src).
    { intros Hr s Ho Hun Hso.
      destruct (IH _ Hr) as (Hin & n & l0 & u & v' & t' & k' & Hn & Ha & Hgn
                             & Hf & Hu & Hs).
      split; [assumption|]. exists (S n), l0, u, v', t', k'.
      rewrite (iter_shift _ (S n)) in Hgn, Hs. rewrite (iter_shift _ n) in Hgn.
      rewrite Hun, Hso. repeat split; assumption. }
    destruct (String.eqb (Py.lower (Py.strip line)) "x") eqn:Hx.
    { rewrite (play_throw_leaves _ _ _ _ _ _ _ _ _ _ Hg Hx) in H. discriminate. }
    destruct (String.eqb (Py.lower (Py.strip line)) "?") eqn:Hq.
    { rewrite (play_throw_helps _ _ _ _ _ _ _ _ _ _ Hg Hx Hq) in H |- *.
      destruct (Game.help_option self) as [[r|e|c] shown]; try discriminate.
      apply (Hnext H); reflexivity. }
    destruct (accepted_digit line) as [u|] eqn:Ha.
    + rewrite (play_throw_accepts _ _ _ _ _ _ _ _ _ _ _ Hg Ha) in H |- *.
      cbn [outcome unread source] in H |- *.
      destruct (generate_fair_number_range 0 5 src v t k _ ltac:(lia) Hg)
        as [Hv _].
      pose proof (proj1 (accepted_digit_Some line u) Ha) as [_ Hu].
      destruct (roll_face d v u H6 ltac:(lia) ltac:(lia)) as [Hroll Hin].
      rewrite Hroll in H. injection H as <-.
      split; [assumption|]. exists 0%nat, line, u, v, t, k.
      repeat split; try reflexivity; assumption.
    + rewrite (play_throw_rejects _ _ _ _ _ _ _ _ _ _ Hg) in H |- *;
        try assumption; try (unfold is_command; now rewrite Hx, Hq).
      apply (Hnext H); reflexivity.
Qed.

Lemma play_throw_returns_a_face_witness :
  outcome (Game.play_throw sample_game (Dice.mk [2; 2; 4; 4; 9; 9]) true
             ["six"%string; "9"; "3"] sample_source) = Return 2 /\
  In 2 [2; 2; 4; 4; 9; 9].
Proof.
  assert (H : outcome (Game.play_throw sample_game (Dice.mk [2; 2; 4; 4; 9; 9])
                         true ["six"%string; "9"; "3"] sample_source)
              = Return 2) by (vm_compute; reflexivity).
  split; [exact H|].
  exact (proj1 (play_throw_returns_a_face sample_game
                  (Dice.mk [2; 2; 4; 4; 9; 9]) true
                  ["six"%string; "9"; "3"] sample_source 2 eq_refl H)).
Defined.




(* ----------------------------------------------------------------- *)
(** ** Either contribution alone decides nothing *)

Lemma accepted_digit_str u : 0 <= u <= 5 -> accepted_digit (Py.str u) = Some u.
Proof.
  intros Hu. apply accepted_digit_Some. split; [|assumption].
  rewrite strip_id; [apply int_str|].
  apply (all_chars_weaken int_char); [apply int_char_not_space|apply str_chars].
Qed.

Lemma sum_mod_6_inj c u1 u2 :
  0 <= u1 <= 5 -> 0 <= u2 <= 5 ->
  (c + u1) mod 6 = (c + u2) mod 6 -> u1 = u2.
Proof. intros H1 H2 H. Z.to_euclidean_division_equations. lia. Qed.

Lemma faces_differ d i j :
  six_faced d -> NoDup (Dice.values d) -> 0 <= i < 6 -> 0 <= j < 6 ->
  Dice.roll d i = Dice.roll d j -> i = j.
Proof.
  unfold six_faced. intros H6 Hnd Hi Hj.
  unfold Dice.roll.
  rewrite (getitem_in_range _ i 0), (getitem_in_range _ j 0) by lia.
  intros [= H].
  pose proof (proj1 (NoDup_nth (Dice.values d) 0) Hnd
                (Z.to_nat i) (Z.to_nat j) ltac:(lia) ltac:(lia) H).
  lia.
Qed.

(** X13. On a die with six distinct faces and a given commitment, the face
    [play_throw] returns is a one-to-one function of the accepted digit, and
    every face of the die is returned for some digit of 0..5; likewise, for a
    given digit, two commitments that lead to the same face committed to the
    same value.  So neither the digit nor the committed value alone fixes the
    throw. *)
Theorem throw_depends_on_both_contributions
    (self : Game.t) (d : Dice.t) (is_user : bool) (stdin : list string)
    (src : Secrets.Source) :
  six_faced d -> NoDup (Dice.values d) ->
  (forall line1 line2 u1 u2,
     accepted_digit line1 = Some u1 -> accepted_digit line2 = Some u2 ->
     outcome (Game.play_throw self d is_user (line1 :: stdin) src)
     = outcome (Game.play_throw self d is_user (line2 :: stdin) src) ->
     u1 = u2) /\
  (forall face, In face (Dice.values d) ->
     exists u, 0 <= u <= 5 /\
       outcome (Game.play_throw self d is_user (Py.str u :: stdin) src)
       = Return face) /\
  (forall line u src2 c1 c2 t1 t2 k1 k2 s1 s2,
     accepted_digit line = Some u ->
     FairRandomGenerator.generate_fair_number 0 5 src
       = (Return (c1, t1, k1), s1) ->
     FairRandomGenerator.generate_fair_number 0 5 src2
       = (Return (c2, t2, k2), s2) ->
     outcome (Game.play_throw self d is_user (line :: stdin) src)
     = outcome (Game.play_throw self d is_user (line :: stdin) src2) ->
     c1 = c2).
Proof.
  intros H6 Hnd.
  destruct (generate_fair_number_total 0 5 src) as (v & t & k & Hg); [lia|].
  destruct (generate_fair_number_range 0 5 src v t k _ ltac:(lia) Hg)
    as [Hv _].
  split; [|split].
  - intros line1 line2 u1 u2 Ha1 Ha2.
    rewrite (play_throw_accepts _ _ _ _ _ _ _ _ _ _ _ Hg Ha1),
            (play_throw_accepts _ _ _ _ _ _ _ _ _ _ _ Hg Ha2).
    cbn [outcome]. intros H.
    apply accepted_digit_Some in Ha1 as [_ Hu1], Ha2 as [_ Hu2].
    apply (faces_differ d) in H; try assumption;
      try (apply Z.mod_pos_bound; lia).
    exact (sum_mod_6_inj v u1 u2 Hu1 Hu2 H).
  - intros face Hin.
    apply (In_nth _ _ 0) in Hin as (i & Hi & <-). rewrite H6 in Hi.
    exists ((Z.of_nat i - v) mod 6).
    pose proof (Z.mod_pos_bound (Z.of_nat i - v) 6 ltac:(lia)) as Hu.
    split; [lia|].
    rewrite (play_throw_accepts _ _ _ _ _ _ _ _ _ _ _ Hg
               (accepted_digit_str ((Z.of_nat i - v) mod 6) ltac:(lia))).
    cbn [outcome].
    replace ((v + (Z.of_nat i - v) mod 6) mod 6) with (Z.of_nat i)
      by (Z.to_euclidean_division_equations; lia).
    unfold Dice.roll. unfold six_faced in H6.
    rewrite (getitem_in_range _ _ 0) by lia.
    now rewrite Nat2Z.id.
  - intros line u src2 c1 c2 t1 t2 k1 k2 s1 s2 Ha Hg1 Hg2.
    rewrite (play_throw_accepts _ _ _ _ _ _ _ _ _ _ _ Hg1 Ha),
            (play_throw_accepts _ _ _ _ _ _ _ _ _ _ _ Hg2 Ha).
    cbn [outcome]. intros H.
    destruct (generate_fair_number_range 0 5 _ _ _ _ _ ltac:(lia) Hg1)
      as [Hc1 _].
    destruct (generate_fair_number_range 0 5 _ _ _ _ _ ltac:(lia) Hg2)
      as [Hc2 _].
    apply accepted_digit_Some in Ha as [_ Hu].
    apply (faces_differ d) in H; try assumption;
      try (apply Z.mod_pos_bound; lia).
    Z.to_euclidean_division_equations. lia.
Qed.

Lemma throw_depends_on_both_contributions_witness :
  forallb (fun face =>
     existsb (fun u =>
        match outcome (Game.play_throw sample_game
                         (Dice.mk [1; 2; 3; 4; 5; 6]) true
                         [Py.str u] sample_source) with
        | Return f => f =? face
        | _ => false
        end) [0; 1; 2; 3; 4; 5]) [1; 2; 3; 4; 5; 6] = true /\
  exists u, 0 <= u <= 5 /\
    outcome (Game.play_throw sample_game (Dice.mk [1; 2; 3; 4; 5; 6]) true
               [Py.str u] sample_source) = Return 6.
Proof.
  split; [vm_compute; reflexivity|].
  apply (proj1 (proj2 (throw_depends_on_both_contributions sample_game
           (Dice.mk [1; 2; 3; 4; 5; 6]) true [] sample_source eq_refl
           ltac:(repeat constructor; cbn; intuition discriminate)))).
  cbn. auto 10.
Defined.

(* ----------------------------------------------------------------- *)
(** ** [main] on arguments it rejects *)



(* ----------------------------------------------------------------- *)
(** ** What the human can check at the reveal *)

Lemma generate_fair_number_tag min_val max_val src value tag key src' :
  min_val <= max_val ->
  FairRandomGenerator.generate_fair_number min_val max_val src
    = (Return (value, tag, key), src') ->
  tag = Hashlib.hexdigest key (Hashlib.encode (Py.str value)).
Proof.
  intros Hle H. rewrite (generate_fair_number_draws _ _ _ Hle) in H.
  now injection H as <- <- <- _.
Qed.

Lemma written_after {A} out (s : Step A) :
  written (after out s) = (out ++ written s)%list.
Proof. reflexivity. Qed.

(** X15. Whenever [determine_first_move] returns, what it wrote ends with a
    challenge and the reveal that belongs to it: the tag in the last
    challenge is the keyed hash of the value under the key shown in the last
    line, so the human can recompute the tag from what was revealed.  The
    step has read the lines up to the accepted one and drawn one commitment
    per line. *)
Theorem first_move_reveal_matches_published_tag
    (self : Game.t) (stdin : list string) (src : Secrets.Source)
    (mover : string) :
  outcome (Game.determine_first_move self stdin src) = Return mover ->
  exists n before value tag key,
    written (Game.determine_first_move self stdin src)
    = (before ++ first_move_challenge tag ++
       [Line ("My selection: " ++ Py.str value ++ " (KEY=" ++ Hashlib.hex key
              ++ ").")])%list /\
    tag = Hashlib.hex (Hashlib.hmac_sha3_256 key (Hashlib.encode (Py.str value)))
    /\
    unread (Game.determine_first_move self stdin src) = skipn (S n) stdin /\
    source (Game.determine_first_move self stdin src)
    = Nat.iter (S n) (next_source 0 1) src.
Proof.
  revert src. induction stdin as [|line stdin IH]; intros src H.
  - rewrite determine_first_move_eof in H. discriminate.
  - destruct (generate_fair_number_total 0 1 src) as (v & t & k & Hg); [lia|].
    assert (Hnext : forall out,
      outcome (Game.determine_first_move self stdin (next_source 0 1 src))
        = Return mover ->
      exists n before value tag key,
        written (after out
                   (Game.determine_first_move self stdin (next_source 0 1 src)))
        = (before ++ first_move_challenge tag ++
           [Line ("My selection: " ++ Py.str value ++ " (KEY="
                  ++ Hashlib.hex key ++ ").")])%list /\
        tag = Hashlib.hex
                (Hashlib.hmac_sha3_256 key (Hashlib.encode (Py.str value))) /\
        unread (after out
                  (Game.determine_first_move self stdin (next_source 0 1 src)))
        = skipn (S n) (line :: stdin) /\
        source (after out
                  (Game.determine_first_move self stdin (next_source 0 1 src)))
        = Nat.iter (S n) (next_source 0 1) src).
    { intros out Hr.
      destruct (IH _ Hr) as (n & before & v' & t' & k' & Hw & Ht & Hu & Hs).
      exists (S n), (out ++ before)%list, v', t', k'.
      rewrite written_after, Hw, <- app_assoc.
      rewrite (iter_shift _ (S n)) in Hs.
      repeat split; assumption. }
    destruct (String.eqb (Py.lower (Py.strip line)) "x") eqn:Hx.
    { rewrite (determine_first_move_leaves _ _ _ _ Hx) in H. discriminate. }
    destruct (String.eqb (Py.lower (Py.strip line)) "?") eqn:Hq.
    { rewrite (determine_first_move_helps _ _ _ _ _ _ _ _ Hg Hx Hq) in H |- *.
      destruct (Game.help_option self) as [[r|e|c] shown]; try discriminate.
      apply Hnext, H. }
    destruct (accepted_guess line) as [u|] eqn:Ha.
    + rewrite (determine_first_move_accepts _ _ _ _ _ _ _ _ _ Hg Ha).
      exists 0%nat, [], v, t, k. cbn [written unread source app].
      split; [reflexivity|].
      split; [exact (generate_fair_number_tag 0 1 _ _ _ _ _ ltac:(lia) Hg)|].
      split; reflexivity.
    + rewrite (determine_first_move_rejects _ _ _ _ _ _ _ _ Hg) in H |- *;
        try assumption; try (unfold is_command; now rewrite Hx, Hq).
      apply Hnext, H.
Qed.

Lemma first_move_reveal_matches_published_tag_witness :
  outcome (Game.determine_first_move sample_game ["maybe"; "?"; "0"]
             sample_source) = Return "user" /\
  exists n before value tag key,
    written (Game.determine_first_move sample_game ["maybe"; "?"; "0"]
               sample_source)
    = (before ++ first_move_challenge tag ++
       [Line ("My selection: " ++ Py.str value ++ " (KEY=" ++ Hashlib.hex key
              ++ ").")])%list /\
    tag = Hashlib.hex (Hashlib.hmac_sha3_256 key (Hashlib.encode (Py.str value)))
    /\
    unread (Game.determine_first_move sample_game ["maybe"; "?"; "0"]
              sample_source) = skipn (S n) ["maybe"; "?"; "0"] /\
    source (Game.determine_first_move sample_game ["maybe"; "?"; "0"]
              sample_source)
    = Nat.iter (S n) (next_source 0 1) sample_source.
Proof.
  assert (H : outcome (Game.determine_first_move sample_game
                         ["maybe"; "?"; "0"] sample_source)
              = Return "user") by (vm_compute; reflexivity).
  split; [exact H|].
  exact (first_move_reveal_matches_published_tag sample_game
           ["maybe"; "?"; "0"] sample_source "user" H).
Defined.

(** X16. Whenever [play_throw] returns, what it wrote ends with a challenge,
    the reveal of the value and key behind the tag of that challenge, and the
    line that adds the accepted digit to that value modulo 6; the face
    returned is the one [Dice.roll] gives at the index shown in that line. *)
Theorem throw_reveal_matches_published_tag
    (self : Game.t) (d : Dice.t) (is_user : bool) (stdin : list string)
    (src : Secrets.Source) (face : Z) :
  outcome (Game.play_throw self d is_user stdin src) = Return face ->
  exists before value tag key u,
    written (Game.play_throw self d is_user stdin src)
    = (before ++ throw_challenge is_user tag ++
       [ Line ("My number is " ++ Py.str value ++ " (KEY=" ++ Hashlib.hex key
               ++ ").");
         Line ("The result is " ++ Py.str value ++ " + " ++ Py.str u ++ " = "
               ++ Py.str ((value + u) mod 6) ++ " (mod 6).") ])%list /\
    tag = Hashlib.hex (Hashlib.hmac_sha3_256 key (Hashlib.encode (Py.str value)))
    /\
    0 <= value <= 5 /\ 0 <= u <= 5 /\
    Dice.roll d ((value + u) mod 6) = Return face.
Proof.
  revert src. induction stdin as [|line stdin IH]; intros src H.
  - destruct (generate_fair_number_total 0 5 src) as (v & t & k & Hg); [lia|].
    rewrite (play_throw_eof _ _ _ _ _ _ _ _ Hg) in H. discriminate.
  - destruct (generate_fair_number_total 0 5 src) as (v & t & k & Hg); [lia|].
    assert (Hnext : forall out,
      outcome (Game.play_throw self d is_user stdin (next_source 0 5 src))
        = Return face ->
      exists before value tag key u,
        written (after out
                   (Game.play_throw self d is_user stdin (next_source 0 5 src)))
        = (before ++ throw_challenge is_user tag ++
           [ Line ("My number is " ++ Py.str value ++ " (KEY="
                   ++ Hashlib.hex key ++ ").");
             Line ("The result is " ++ Py.str value ++ " + " ++ Py.str u
                   ++ " = " ++ Py.str ((value + u) mod 6) ++ " (mod 6).") ])%list
        /\
        tag = Hashlib.hex
                (Hashlib.hmac_sha3_256 key (Hashlib.encode (Py.str value))) /\
        0 <= value <= 5 /\ 0 <= u <= 5 /\
        Dice.roll d ((value + u) mod 6) = Return face).
    { intros out Hr.
      destruct (IH _ Hr) as (before & v' & t' & k' & u' & Hw & Hrest).
      exists (out ++ before)%list, v', t', k', u'.
      rewrite written_after, Hw, <- app_assoc. split; [reflexivity|exact Hrest]. }
    destruct (String.eqb (Py.lower (Py.strip line)) "x") eqn:Hx.
    { rewrite (play_throw_leaves _ _ _ _ _ _ _ _ _ _ Hg Hx) in H. discriminate. }
    destruct (String.eqb (Py.lower (Py.strip line)) "?") eqn:Hq.
    { rewrite (play_throw_helps _ _ _ _ _ _ _ _ _ _ Hg Hx Hq) in H |- *.
      destruct (Game.help_option self) as [[r|e|c] shown]; try discriminate.
      apply Hnext, H. }
    destruct (accepted_digit line) as [u|] eqn:Ha.
    + rewrite (play_throw_accepts _ _ _ _ _ _ _ _ _ _ _ Hg Ha) in H |- *.
      cbn [outcome] in H.
      exists [], v, t, k, u. cbn [written app].
      split; [reflexivity|].
      split; [exact (generate_fair_number_tag 0 5 _ _ _ _ _ ltac:(lia) Hg)|].
      split; [exact (proj1 (generate_fair_number_range 0 5 _ _ _ _ _
                              ltac:(lia) Hg))|].
      split; [exact (proj2 (proj1 (accepted_digit_Some line u) Ha))|exact H].
    + rewrite (play_throw_rejects _ _ _ _ _ _ _ _ _ _ Hg) in H |- *;
        try assumption; try (unfold is_command; now rewrite Hx, Hq).
      apply Hnext, H.
Qed.

Lemma throw_reveal_matches_published_tag_witness :
  outcome (Game.play_throw sample_game (Dice.mk [2; 2; 4; 4; 9; 9]) true
             ["six"; "9"; "3"] sample_source) = Return 2 /\
  exists before value tag key u,
    written (Game.play_throw sample_game (Dice.mk [2; 2; 4; 4; 9; 9]) true
               ["six"; "9"; "3"] sample_source)
    = (before ++ throw_challenge true tag ++
       [ Line ("My number is " ++ Py.str value ++ " (KEY=" ++ Hashlib.hex key
               ++ ").");
         Line ("The result is " ++ Py.str value ++ " + " ++ Py.str u ++ " = "
               ++ Py.str ((value + u) mod 6) ++ " (mod 6).") ])%list /\
    tag = Hashlib.hex (Hashlib.hmac_sha3_256 key (Hashlib.encode (Py.str value)))
    /\
    0 <= value <= 5 /\ 0 <= u <= 5 /\
    Dice.roll (Dice.mk [2; 2; 4; 4; 9; 9]) ((value + u) mod 6) = Return 2.
Proof.
  assert (H : outcome (Game.play_throw sample_game (Dice.mk [2; 2; 4; 4; 9; 9])
                         true ["six"; "9"; "3"] sample_source) = Return 2)
    by (vm_compute; reflexivity).
  split; [exact H|].
  exact (throw_reveal_matches_published_tag sample_game
           (Dice.mk [2; 2; 4; 4; 9; 9]) true ["six"; "9"; "3"]
           sample_source 2 H).
Defined.

(* ----------------------------------------------------------------- *)
(** ** A whole game *)








(* ----------------------------------------------------------------- *)
(** ** [Game.user_select_dice] on an index that is not available *)

Lemma list_remaining_lists self remaining :
  Forall (fun i => 0 <= i < Z.of_nat (List.length (Game.dice self))) remaining ->
  Game.list_remaining self remaining
  = (Return tt,
     map (fun i =>
            Line (Py.str i ++ " - "
                  ++ ProbabilityCalculator.show_values
                       (nth (Z.to_nat i) (Game.dice self) (Dice.mk []))))
         remaining).
Proof.
  induction 1 as [|i remaining Hi _ IH]; [reflexivity|].
  cbn [Game.list_remaining map].
  rewrite (getitem_in_range _ _ (Dice.mk [])) by assumption.
  now rewrite IH.
Qed.

Lemma getitem_total {A} (l : list A) i :
  - Z.of_nat (List.length l) <= i < Z.of_nat (List.length l) ->
  exists a, Py.getitem l i = Return a.
Proof.
  intros Hi. unfold Py.getitem.
  set (j := if i <? 0 then i + Z.of_nat (List.length l) else i).
  assert (Hj : 0 <= j < Z.of_nat (List.length l))
    by (subst j; destruct (Z.ltb_spec i 0); lia).
  destruct (Z.leb_spec 0 j); [|lia].
  destruct (Z.ltb_spec j (Z.of_nat (List.length l))); [|lia].
  cbn [andb]. destruct (nth_error l (Z.to_nat j)) eqn:E; [eauto|].
  apply nth_error_None in E. lia.
Qed.

(** X18. In a game whose pool is in order, a line holding an integer that is
    a valid list index of [dice] but is not in the pool (a die already taken,
    or a negative index, which Python counts from the end) is echoed as a
    choice of the die at that index and then refused: the step prompts again
    on the rest of the input, with the pool and the random source
    unchanged. *)
Theorem user_select_dice_refuses_unavailable_index
    (self : Game.t) (line : string) (stdin : list string)
    (src : Secrets.Source) (i : Z) :
  pool_ok self ->
  Py.int (Py.strip line) = Return i ->
  - Z.of_nat (List.length (Game.dice self)) <= i
    < Z.of_nat (List.length (Game.dice self)) ->
  ~ In i (Game.remaining_dice self) ->
  exists chosen,
    Py.getitem (Game.dice self) i = Return chosen /\
    Game.user_select_dice self (line :: stdin) src
    = after (selection_menu self ++
             [ Line ("You choose the " ++ Py.repr_list (Dice.values chosen)
                     ++ " dice.");
               Line "Invalid choice. Try again." ])
            (Game.user_select_dice self stdin src).
Proof.
  intros [_ Hr] Hi Hrange Hnot.
  destruct (getitem_total (Game.dice self) i Hrange) as [chosen Hg].
  exists chosen. split; [exact Hg|].
  destruct (is_command_false line (int_is_not_command _ _ Hi)) as [Hx Hq].
  cbn [Game.user_select_dice].
  rewrite (list_remaining_lists self _ Hr), Hx, Hq, Hi. cbn [bind].
  rewrite Hg.
  destruct (Py.contains i (Game.remaining_dice self)) eqn:Hc;
    [apply contains_In in Hc; contradiction|].
  unfold selection_menu. rewrite <- !app_assoc. reflexivity.
Qed.

Lemma user_select_dice_refuses_unavailable_index_witness :
  exists chosen,
    Py.getitem (Game.dice sample_game) (-1) = Return chosen /\
    Dice.values chosen = [7; 5; 3; 7; 5; 3] /\
    Game.user_select_dice sample_game ["-1"; "2"] sample_source
    = after (selection_menu sample_game ++
             [ Line ("You choose the " ++ Py.repr_list (Dice.values chosen)
                     ++ " dice.");
               Line "Invalid choice. Try again." ])
            (Game.user_select_dice sample_game ["2"] sample_source).
Proof.
  destruct (user_select_dice_refuses_unavailable_index sample_game "-1" ["2"]
              sample_source (-1) (init_pool_ok sample_dice) eq_refl
              ltac:(cbn; lia)
              ltac:(cbn; intuition discriminate))
    as (chosen & Hg & Hrun).
  exists chosen. split; [exact Hg|]. split; [|exact Hrun].
  cbn in Hg. now injection Hg as <-.
Defined.
